(** * openid.yadis.manager: session-backed Yadis service discovery state

    A shallow embedding of [src/openid/yadis/manager.py]:
    the class [YadisServiceManager] (a [dict] subclass holding the list of
    services still to be tried) and the class [Discovery] (the policy layer
    that loads, creates, advances and destroys the manager kept in the
    session).

    Python objects that the code mutates (the managers) live in a heap and
    are referred to by address, so that the manager found in the session and
    the local variable [manager] of [getNextService] are one object.  The
    session is a Python [dict]: an insertion-ordered mapping from hashable
    keys to values.  Every operation of the two classes is a computation in
    a state-and-exception monad over the heap, the session and a trace of
    the observable events (calls of the injected discovery function, sets
    and deletes on the session). *)

From Stdlib Require Import String Ascii List Bool Arith Lia.
From stdpp Require Import base list.
Import ListNotations.
Local Open Scope string_scope.
Local Open Scope list_scope.
Set Warnings "-register-all".

(** ** Python values *)

Module Py.

(** Plain data: what a serialisation layer round-trips, plus opaque service
    descriptors ([DSvc n] is the descriptor object with identity [n]).  A
    plain [dict] is an association list on string keys in which the first
    binding of a key is the one that counts. *)
Inductive data : Type :=
  | DNone
  | DStr (s : string)
  | DSvc (n : nat)
  | DList (l : list data)
  | DTuple (l : list data)
  | DDict (d : list (string * data)).

(** Hashable values, the keys of a Python [dict]. *)
Inductive key : Type :=
  | KNone
  | KStr (s : string)
  | KSvc (n : nat)
  | KTuple (ks : list key).

(** Exceptions the code can raise or let through.  [Fault n] is an opaque
    failure of the injected discovery function.  [BadRef] is not a Python
    exception: it marks the dereference of an address that the heap does not
    hold, which no well-formed store allows. *)
Inductive exn : Type :=
  | StopIteration
  | KeyError
  | TypeError
  | AttributeError
  | Fault (n : nat)
  | BadRef.

Inductive result (A : Type) : Type :=
  | Ok (a : A)
  | Raise (e : exn).
Arguments Ok {A} a.
Arguments Raise {A} e.

(** [hash(v)]: lists and dicts are unhashable, a tuple is hashable when all
    of its items are. *)
Fixpoint hash_key (v : data) : result key :=
  match v with
  | DNone => Ok KNone
  | DStr s => Ok (KStr s)
  | DSvc n => Ok (KSvc n)
  | DTuple l =>
      match
        (fix items (l : list data) : result (list key) :=
           match l with
           | [] => Ok []
           | x :: l' =>
               match hash_key x, items l' with
               | Ok k, Ok ks => Ok (k :: ks)
               | Raise e, _ => Raise e
               | _, Raise e => Raise e
               end
           end) l
      with
      | Ok ks => Ok (KTuple ks)
      | Raise e => Raise e
      end
  | DList _ | DDict _ => Raise TypeError
  end.

(** Key equality, as [dict] lookup decides it. *)
Fixpoint key_eqb (a b : key) : bool :=
  match a, b with
  | KNone, KNone => true
  | KStr s, KStr t => String.eqb s t
  | KSvc n, KSvc m => Nat.eqb n m
  | KTuple xs, KTuple ys =>
      (fix all2 (xs ys : list key) : bool :=
         match xs, ys with
         | [], [] => true
         | x :: xs', y :: ys' => key_eqb x y && all2 xs' ys'
         | _, _ => false
         end) xs ys
  | _, _ => false
  end.

(** [list(v)]: a copy of the items of an iterable.  [None] and service
    descriptors are not iterable; a string yields its characters and a dict
    its keys. *)
Fixpoint chars (s : string) : list data :=
  match s with
  | EmptyString => []
  | String c s' => DStr (String c EmptyString) :: chars s'
  end.

Definition py_list (v : data) : result (list data) :=
  match v with
  | DList l => Ok l
  | DTuple l => Ok l
  | DStr s => Ok (chars s)
  | DDict d => Ok (map (fun kv => DStr (fst kv)) d)
  | DNone | DSvc _ => Raise TypeError
  end.

(** [d.get(k, None)] on a plain dict. *)
Fixpoint dict_get (d : list (string * data)) (k : string) : data :=
  match d with
  | [] => DNone
  | (k', v) :: d' => if String.eqb k' k then v else dict_get d' k
  end.

(** [url == v] for a string [url]: a string equals only an equal string. *)
Definition str_eq (url : string) (v : data) : bool :=
  match v with
  | DStr s => String.eqb url s
  | _ => false
  end.

(** [v is None] *)
Definition is_None (v : data) : bool :=
  match v with
  | DNone => true
  | _ => false
  end.

End Py.
Import Py.

(** ** The store: heap of managers, session, event trace *)

(** The contents of a [YadisServiceManager]: the five items that
    [__init__] puts into the dict, and the instance attributes that
    [Discovery._from_dict] sets on the object next to them. *)
Record manager : Type := mkManager {
  starting_url : data;
  yadis_url : data;
  services : list data;
  session_key : data;
  _current : data;
  attrs : list (string * data)
}.

Definition addr : Type := nat.

(** What a session slot holds: plain data or a manager object. *)
Inductive sval : Type :=
  | SData (d : data)
  | SRef (a : addr).

Inductive event : Type :=
  | EDiscover (url : string)
  | ESet (k : key)
  | EDel (k : key).

Record state : Type := mkState {
  heap : list manager;
  session : list (key * sval);
  trace : list event
}.

(** [session.get(k)]: the value of the first binding, else [None]. *)
Fixpoint sess_get (k : key) (s : list (key * sval)) : sval :=
  match s with
  | [] => SData DNone
  | (k', v) :: s' => if key_eqb k' k then v else sess_get k s'
  end.

Fixpoint sess_mem (k : key) (s : list (key * sval)) : bool :=
  match s with
  | [] => false
  | (k', _) :: s' => key_eqb k' k || sess_mem k s'
  end.

(** [session[k] = v]: an existing key keeps its place, a new one goes last. *)
Fixpoint sess_set (k : key) (v : sval) (s : list (key * sval)) : list (key * sval) :=
  match s with
  | [] => [(k, v)]
  | (k', v') :: s' =>
      if key_eqb k' k then (k', v) :: s' else (k', v') :: sess_set k v s'
  end.

(** [del session[k]] on a session that holds [k]: no binding of [k] is
    left. *)
Fixpoint sess_del (k : key) (s : list (key * sval)) : list (key * sval) :=
  match s with
  | [] => []
  | (k', v') :: s' =>
      if key_eqb k' k then sess_del k s' else (k', v') :: sess_del k s'
  end.

(** ** The monad of state and exceptions

    An exception leaves the effects made so far in place, as in Python. *)

Definition M (A : Type) : Type := state -> result A * state.

Definition ret {A} (a : A) : M A := fun s => (Ok a, s).
Definition raise {A} (e : exn) : M A := fun s => (Raise e, s).
Definition bind {A B} (m : M A) (f : A -> M B) : M B :=
  fun s =>
    match m s with
    | (Ok a, s') => f a s'
    | (Raise e, s') => (Raise e, s')
    end.

Declare Scope py_scope.
Delimit Scope py_scope with py.
Notation "x <- m ;; k" := (bind m (fun x => k))
  (at level 100, m at next level, right associativity) : py_scope.
Notation "m ;;; k" := (bind m (fun _ => k))
  (at level 100, right associativity) : py_scope.
Local Open Scope py_scope.

Definition lift {A} (r : result A) : M A :=
  match r with
  | Ok a => ret a
  | Raise e => raise e
  end.

Definition emit (e : event) : M unit :=
  fun s => (Ok tt, mkState (heap s) (session s) (e :: trace s)).

(** Object allocation and access. *)
Definition alloc (m : manager) : M addr :=
  fun s => (Ok (length (heap s)), mkState (heap s ++ [m]) (session s) (trace s)).

Definition deref (a : addr) : M manager :=
  fun s =>
    match heap s !! a with
    | Some m => (Ok m, s)
    | None => (Raise BadRef, s)
    end.

Definition assign (a : addr) (m : manager) : M unit :=
  fun s => (Ok tt, mkState (<[a:=m]> (heap s)) (session s) (trace s)).

(** Session access.  Each set and each delete is recorded in the trace. *)
Definition session_get (k : key) : M sval :=
  fun s => (Ok (sess_get k (session s)), s).

Definition session_set (k : key) (v : sval) : M unit :=
  fun s => (Ok tt, mkState (heap s) (sess_set k v (session s)) (ESet k :: trace s)).

Definition session_del (k : key) : M unit :=
  fun s =>
    if sess_mem k (session s)
    then (Ok tt, mkState (heap s) (sess_del k (session s)) (EDel k :: trace s))
    else (Raise KeyError, s).

(** ** class YadisServiceManager(dict) *)

Module YadisServiceManager.

(** [__init__]: the dict gets the five items; [services] is copied with
    [list(services)], which raises when [services] is not iterable. *)
Definition __init__ (starting_url yadis_url services session_key : data)
  : M addr :=
  l <- lift (py_list services) ;;
  alloc {| starting_url := starting_url;
           yadis_url := yadis_url;
           services := l;
           session_key := session_key;
           _current := DNone;
           attrs := [] |}.

(** The property setter [self._current = value]. *)
Definition set__current (value : data) (m : manager) : manager :=
  {| starting_url := starting_url m;
     yadis_url := yadis_url m;
     services := services m;
     session_key := session_key m;
     _current := value;
     attrs := attrs m |}.

(** [self.services] after [pop(0)] has removed its first item. *)
Definition set_services (value : list data) (m : manager) : manager :=
  {| starting_url := starting_url m;
     yadis_url := yadis_url m;
     services := value;
     session_key := session_key m;
     _current := _current m;
     attrs := attrs m |}.

(** [setattr(self, name, value)] for a name that is not a property. *)
Definition set_attr (name : string) (value : data) (m : manager) : manager :=
  {| starting_url := starting_url m;
     yadis_url := yadis_url m;
     services := services m;
     session_key := session_key m;
     _current := _current m;
     attrs := (name, value) :: attrs m |}.

(** [__len__]: how many untried services remain. *)
Definition __len__ (m : manager) : nat := length (services m).

(** [bool(self)]: a dict subclass that defines [__len__] is true when its
    length is not zero. *)
Definition __bool__ (m : manager) : bool := negb (Nat.eqb (__len__ m) 0).

(** [self.services.pop(0)]: [IndexError] on an empty list is turned into
    [None] here and into [StopIteration] by the caller. *)
Definition pop0 (l : list data) : option (data * list data) :=
  match l with
  | [] => None
  | x :: l' => Some (x, l')
  end.

(** [__next__] on the object itself: the result and the object afterwards.
    When [pop(0)] raises, the assignment to [_current] has not happened. *)
Definition next_obj (m : manager) : result data * manager :=
  match pop0 (services m) with
  | Some (x, rest) =>
      let m' := set__current x (set_services rest m) in
      (Ok (_current m'), m')
  | None => (Raise StopIteration, m)
  end.

Definition __next__ (self : addr) : M data :=
  m <- deref self ;;
  let (r, m') := next_obj m in
  assign self m' ;;;
  lift r.

(** [current]: the service most recently returned by [__next__]. *)
Definition current (m : manager) : data := _current m.

(** [forURL]: [url in [self.starting_url, self.yadis_url]]. *)
Definition forURL (m : manager) (url : string) : bool :=
  existsb (str_eq url) [starting_url m; yadis_url m].

(** [started]: has the first service been returned? *)
Definition started (m : manager) : bool := negb (is_None (_current m)).

(** [store]: [session[self.session_key] = self]. *)
Definition store (self : addr) : M unit :=
  m <- deref self ;;
  k <- lift (hash_key (session_key m)) ;;
  session_set k (SRef self).

(** [n] calls of [__next__] in a row, collecting what they return; the
    first call that raises ends the run with its exception. *)
Fixpoint next_n (n : nat) (self : addr) : M (list data) :=
  match n with
  | 0 => ret []
  | S n' =>
      x <- __next__ self ;;
      xs <- next_n n' self ;;
      ret (x :: xs)
  end.

(** [dict(self)]: the items of the manager as a plain dict, in the order
    in which [__init__] inserts them. *)
Definition as_dict (m : manager) : list (string * data) :=
  [ ("starting_url", starting_url m);
    ("yadis_url", yadis_url m);
    ("services", DList (services m));
    ("session_key", session_key m);
    ("_current", _current m) ].

End YadisServiceManager.

(** ** class Discovery *)

Module Discovery.

Import YadisServiceManager.

(** A [Discovery] object; its [session] is the session of the state. *)
Record t : Type := mk {
  url : string;
  session_key_suffix : string
}.

Definition DEFAULT_SUFFIX : string := "auth".
Definition PREFIX : string := "_yadis_services_".

Definition __init__ (url : string) (session_key_suffix : option string) : t :=
  {| url := url;
     session_key_suffix :=
       match session_key_suffix with
       | None => DEFAULT_SUFFIX
       | Some x => x
       end |}.

(** The injected discovery function: from a URL, a resolved URL and a
    list of services, or a fault.  It does not touch the session. *)
Definition discover_fn : Type := string -> result (data * list data).

Definition getSessionKey (self : t) : string :=
  (PREFIX ++ session_key_suffix self)%string.

(** [_from_dict]: every assignment but the last ends in a comma in the
    source, so its right-hand side is a one-item tuple. *)
Definition _from_dict (d : list (string * data)) : M addr :=
  newmanager <- YadisServiceManager.__init__
                  (dict_get d "starting_url")
                  (dict_get d "yadis_url")
                  (dict_get d "services")
                  (dict_get d "session_key") ;;
  m <- deref newmanager ;;
  let m := set__current (DTuple [dict_get d "_current"]) m in
  let m := set_attr "server_url" (DTuple [dict_get d "server_url"]) m in
  let m := set_attr "type_uris" (DTuple [dict_get d "type_uris"]) m in
  let m := set_attr "local_id" (DTuple [dict_get d "local_id"]) m in
  let m := set_attr "canonicalID" (DTuple [dict_get d "canonicalID"]) m in
  let m := set_attr "used_yadis" (DTuple [dict_get d "used_yadis"]) m in
  let m := set_attr "display_identifier" (dict_get d "display_identifier") m in
  assign newmanager m ;;;
  ret newmanager.

(** [getManager]: a plain dict in the slot is rebuilt into a manager; any
    other value that is not [None] is asked for [forURL], which only a
    manager has. *)
Definition getManager (self : t) (force : bool) : M (option addr) :=
  manager <- session_get (KStr (getSessionKey self)) ;;
  manager <- match manager with
             | SData (DDict d) => a <- _from_dict d ;; ret (SRef a)
             | _ => ret manager
             end ;;
  match manager with
  | SData DNone => ret None
  | SRef a =>
      m <- deref a ;;
      if forURL m (url self) || force then ret (Some a) else ret None
  | SData _ => raise AttributeError
  end.

(** Truth value of [manager] where it is [None] or a manager. *)
Definition truth (manager : option addr) : M bool :=
  match manager with
  | None => ret false
  | Some a => m <- deref a ;; ret (__bool__ m)
  end.

(** [createManager]: [KeyError] when [self.getManager()] is true, [None]
    for no services, else a new manager stored in the session. *)
Definition createManager (self : t) (services : list data) (yadis_url : data)
  : M (option addr) :=
  let key := getSessionKey self in
  existing <- getManager self false ;;
  b <- truth existing ;;
  if b then raise KeyError
  else
    match services with
    | [] => ret None
    | _ =>
        manager <- YadisServiceManager.__init__
                     (DStr (url self)) yadis_url (DList services) (DStr key) ;;
        store manager ;;;
        ret (Some manager)
    end.

(** [destroyManager]: delete the slot when [getManager(force)] is not
    [None]. *)
Definition destroyManager (self : t) (force : bool) : M unit :=
  manager <- getManager self force ;;
  match manager with
  | Some _ => session_del (KStr (getSessionKey self))
  | None => ret tt
  end.

(** The call [discover(self.url)] with the unpacking of its result. *)
Definition call (discover : discover_fn) (url : string) : M (data * list data) :=
  emit (EDiscover url) ;;;
  lift (discover url).

(** [getNextService]: the three [if] statements of the source in order;
    [manager] is tested for truth anew by each of them. *)
Definition getNextService (self : t) (discover : discover_fn) : M data :=
  manager <- getManager self false ;;
  match manager with
  | Some a =>
      m <- deref a ;;
      if negb (__bool__ m) then destroyManager self false else ret tt
  | None => ret tt
  end ;;;
  b <- truth manager ;;
  manager <- (if negb b then
                found <- call discover (url self) ;;
                let (yadis_url, services) := found in
                createManager self services yadis_url
              else ret manager) ;;
  match manager with
  | Some a =>
      m <- deref a ;;
      if __bool__ m then
        service <- __next__ a ;;
        store a ;;;
        ret service
      else ret DNone
  | None => ret DNone
  end.

(** [cleanup]: the current service of the manager if there is one, and
    the slot destroyed. *)
Definition cleanup (self : t) (force : bool) : M data :=
  manager <- getManager self force ;;
  match manager with
  | Some a =>
      m <- deref a ;;
      let service := current m in
      destroyManager self force ;;;
      ret service
  | None => ret DNone
  end.

End Discovery.

Import YadisServiceManager.
Import Discovery.

(** ** Observations on a run *)

(** The events a computation adds to the trace when run from [s], newest
    first. *)
Definition events_of {A} (m : M A) (s : state) : list event :=
  let t' := trace (snd (m s)) in
  firstn (length t' - length (trace s)) t'.

Definition is_discover (e : event) : bool :=
  match e with
  | EDiscover _ => true
  | _ => false
  end.

(** Sets and deletes on the session, whatever the key. *)
Definition is_mutation (e : event) : bool :=
  match e with
  | ESet _ | EDel _ => true
  | EDiscover _ => false
  end.

(** Sets and deletes of [session[k]]. *)
Definition is_mutation_of (k : key) (e : event) : bool :=
  match e with
  | ESet k' | EDel k' => key_eqb k' k
  | EDiscover _ => false
  end.

Definition discover_calls (l : list event) : nat :=
  length (List.filter is_discover l).

Definition mutations (l : list event) : nat :=
  length (List.filter is_mutation l).

Definition slot_mutations (k : key) (l : list event) : nat :=
  length (List.filter (is_mutation_of k) l).

(** Sets and deletes counted apart, on any key and on the key [k]. *)
Definition is_set (e : event) : bool :=
  match e with
  | ESet _ => true
  | _ => false
  end.

Definition is_delete (e : event) : bool :=
  match e with
  | EDel _ => true
  | _ => false
  end.

Definition is_set_of (k : key) (e : event) : bool :=
  match e with
  | ESet k' => key_eqb k' k
  | _ => false
  end.

Definition is_delete_of (k : key) (e : event) : bool :=
  match e with
  | EDel k' => key_eqb k' k
  | _ => false
  end.

Definition sets (l : list event) : nat := length (List.filter is_set l).

Definition deletes (l : list event) : nat := length (List.filter is_delete l).

Definition slot_sets (k : key) (l : list event) : nat :=
  length (List.filter (is_set_of k) l).

Definition slot_deletes (k : key) (l : list event) : nat :=
  length (List.filter (is_delete_of k) l).

(** The manager that [Discovery._from_dict] builds from a plain dict whose
    [services] item is the list [l]. *)
Definition rebuilt (d : list (string * data)) (l : list data) : manager :=
  {| starting_url := dict_get d "starting_url";
     yadis_url := dict_get d "yadis_url";
     services := l;
     session_key := dict_get d "session_key";
     _current := DTuple [dict_get d "_current"];
     attrs :=
       [ ("display_identifier", dict_get d "display_identifier");
         ("used_yadis", DTuple [dict_get d "used_yadis"]);
         ("canonicalID", DTuple [dict_get d "canonicalID"]);
         ("local_id", DTuple [dict_get d "local_id"]);
         ("type_uris", DTuple [dict_get d "type_uris"]);
         ("server_url", DTuple [dict_get d "server_url"]) ] |}.

(** The manager that [createManager] builds for [services]. *)
Definition created (self : Discovery.t) (yadis_url : data) (services : list data)
  : manager :=
  {| starting_url := DStr (Discovery.url self);
     yadis_url := yadis_url;
     services := services;
     session_key := DStr (Discovery.getSessionKey self);
     _current := DNone;
     attrs := [] |}.

(** The slot of a [Discovery] object in the session. *)
Definition slot (self : Discovery.t) : key := KStr (Discovery.getSessionKey self).

(** [adds m d n]: from any state, [m] extends the trace by events among
    which at most [d] are calls of the discovery function and at most [n]
    are sets or deletes on the session. *)

Definition adds {A} (m : M A) (d n : nat) : Prop :=
  forall s, exists l,
    trace (snd (m s)) = l ++ trace s /\
    discover_calls l <= d /\ mutations l <= n.

(** What a successful [getManager] has found in the slot. *)
Inductive loaded (c : Discovery.t) (f : bool) (s : state)
  : option addr -> state -> Prop :=
  | loaded_none :
      sess_get (slot c) (session s) = SData DNone ->
      loaded c f s None s
  | loaded_ref a m :
      sess_get (slot c) (session s) = SRef a ->
      heap s !! a = Some m ->
      loaded c f s (if forURL m (url c) || f then Some a else None) s
  | loaded_dict d l :
      sess_get (slot c) (session s) = SData (DDict d) ->
      py_list (dict_get d "services") = Ok l ->
      loaded c f s
        (if forURL (rebuilt d l) (url c) || f
         then Some (length (heap s)) else None)
        (mkState (heap s ++ [rebuilt d l]) (session s) (trace s)).

(** The store after [createManager] has built and stored a manager on top
    of the store [s1]. *)
Definition stored (c : Discovery.t) (y : data) (l : list data) (s1 : state)
  : state :=
  mkState (heap s1 ++ [created c y l])
    (sess_set (slot c) (SRef (length (heap s1))) (session s1))
    (ESet (slot c) :: trace s1).

(** ** Concrete stores *)

Module Ex.

Definition c : Discovery.t := Discovery.__init__ "https://example.com/" None.

(** A [Discovery] for another URL on the same session slot. *)
Definition c_other : Discovery.t := Discovery.__init__ "https://other.example/" None.

Definition resolved : data := DStr "https://id.example/x".

Definition discover : discover_fn := fun _ => Ok (resolved, [DSvc 1; DSvc 2]).

Definition discover_nothing : discover_fn := fun u => Ok (DStr u, []).

Definition empty : state := mkState [] [] [].

(** The store after one and after two calls of [getNextService]. *)
Definition after_one : state := snd (getNextService c discover empty).
Definition after_two : state := snd (getNextService c discover after_one).

(** A fresh manager, and the plain dict of its items without [_current]. *)
Definition Q : manager := created c resolved [DSvc 1; DSvc 2].

Definition without_current : list (string * data) :=
  [ ("starting_url", starting_url Q);
    ("yadis_url", yadis_url Q);
    ("services", DList (services Q));
    ("session_key", session_key Q) ].

(** A plain dict with every item but [services], in the slot. *)
Definition without_services : list (string * data) :=
  [ ("starting_url", starting_url Q);
    ("yadis_url", yadis_url Q);
    ("session_key", session_key Q);
    ("_current", DNone) ].

Definition holding (v : sval) : state := mkState [] [(slot c, v)] [].

(** The manager [Q] after both of its services have been handed out. *)
Definition exhausted : manager :=
  set__current (DSvc 2)
    (set_services [] (set__current (DSvc 1) (set_services [DSvc 2] Q))).

End Ex.

(** ** Iteration and repeated calls *)

(** [__iter__]: the manager is its own iterator. *)
Definition __iter__ (self : addr) : M addr := ret self.

(** The loop of [list(it)] and of [for x in it] on an iterator object:
    [next(it)] until it raises [StopIteration], which ends the loop; any
    other exception passes.  [fuel] bounds the number of calls of [next];
    the result is [None] when it runs out. *)
Fixpoint collect (fuel : nat) (it : addr) : M (option (list data)) :=
  match fuel with
  | 0 => ret None
  | S fuel' =>
      fun s =>
        match __next__ it s with
        | (Ok x, s') =>
            (rest <- collect fuel' it ;; ret (option_map (cons x) rest)) s'
        | (Raise StopIteration, s') => (Ok (Some []), s')
        | (Raise e, s') => (Raise e, s')
        end
  end.

(** [list(manager)]: [iter(manager)], then the loop. *)
Definition list_of (fuel : nat) (manager : addr) : M (option (list data)) :=
  it <- __iter__ manager ;;
  collect fuel it.

(** [n] calls of [getNextService] in a row with the same discovery
    function, collecting what they return. *)
Fixpoint getNextService_n (n : nat) (self : Discovery.t) (discover : discover_fn)
  : M (list data) :=
  match n with
  | 0 => ret []
  | S n' =>
      x <- getNextService self discover ;;
      xs <- getNextService_n n' self discover ;;
      ret (x :: xs)
  end.

(** More concrete stores. *)
Module Ex2.

(** A [Discovery] for the URL of [Ex.c] with another suffix. *)
Definition c_login : Discovery.t :=
  Discovery.__init__ "https://example.com/" (Some "login").

Definition discover_fault : discover_fn := fun _ => Raise (Fault 7).

Definition discover_three : discover_fn :=
  fun _ => Ok (Ex.resolved, [DSvc 1; DSvc 2; DSvc 3]).

(** The items of the manager [Ex.Q] as a plain dict, and the same without
    the [session_key] item. *)
Definition record : list (string * data) := as_dict Ex.Q.

Definition record_without_key : list (string * data) :=
  [ ("starting_url", starting_url Ex.Q);
    ("yadis_url", yadis_url Ex.Q);
    ("services", DList (services Ex.Q));
    ("_current", DNone) ].

(** The manager in the slot after one call of [getNextService]. *)
Definition advanced : manager :=
  set__current (DSvc 1) (set_services [DSvc 2] Ex.Q).

(** Stores with a plain dict in the slot. *)
Definition holding_record : state := Ex.holding (SData (DDict record)).

Definition holding_record_without_key : state :=
  Ex.holding (SData (DDict record_without_key)).

Definition holding_advanced_record : state :=
  Ex.holding (SData (DDict (as_dict advanced))).

(** The store after one call for [Ex.c] and one for [c_login]. *)
Definition two_flows : state :=
  snd (getNextService c_login Ex.discover Ex.after_one).

End Ex2.

(** [tracks m]: the events that [m] adds to the trace account for what it
    does to the session: a key with no set and no delete among them has
    the value it had. *)
Definition tracks {A} (m : M A) : Prop :=
  forall s, exists l,
    trace (snd (m s)) = l ++ trace s /\
    forall k, slot_mutations k l = 0 ->
      sess_get k (session (snd (m s))) = sess_get k (session s).

(** Events that are sets and deletes of [k0] or discovery calls. *)
Definition only_on (k0 : key) (e : event) : bool :=
  match e with
  | ESet k | EDel k => key_eqb k k0
  | EDiscover _ => true
  end.

(** ** Keys and sessions *)

Lemma key_eqb_refl : forall k, key_eqb k k = true.
Proof.
  fix IH 1. intros [ | s | n | ks]; simpl.
  - reflexivity.
  - apply String.eqb_refl.
  - apply Nat.eqb_refl.
  - induction ks as [ | x xs IHxs]; [reflexivity | ].
    rewrite IH. simpl. exact IHxs.
Qed.

Lemma sess_get_set_eq k v s : sess_get k (sess_set k v s) = v.
Proof.
  induction s as [ | [k' v'] s IHs]; simpl.
  - now rewrite key_eqb_refl.
  - destruct (key_eqb k' k) eqn:E; simpl; rewrite E; auto.
Qed.

Lemma sess_get_del_eq k s : sess_get k (sess_del k s) = SData DNone.
Proof.
  induction s as [ | [k' v'] s IHs]; simpl; [reflexivity | ].
  destruct (key_eqb k' k) eqn:E; simpl; [ | rewrite E]; auto.
Qed.

Lemma sess_mem_del_eq k s : sess_mem k (sess_del k s) = false.
Proof.
  induction s as [ | [k' v'] s IHs]; simpl; [reflexivity | ].
  destruct (key_eqb k' k) eqn:E; simpl; [ | rewrite E]; auto.
Qed.

Lemma sess_get_mem k s : sess_get k s <> SData DNone -> sess_mem k s = true.
Proof.
  induction s as [ | [k' v'] s IHs]; simpl; [congruence | ].
  destruct (key_eqb k' k); simpl; auto.
Qed.

(** ** The heap *)

Lemma heap_lookup_alloc (h : list manager) m : (h ++ [m]) !! length h = Some m.
Proof. apply list_lookup_middle. reflexivity. Qed.

Lemma heap_insert_alloc (h : list manager) m m' :
  <[length h := m']> (h ++ [m]) = h ++ [m'].
Proof.
  rewrite insert_app_r_alt by lia.
  now rewrite Nat.sub_diag.
Qed.

(** ** Running the methods of YadisServiceManager *)

Ltac unfold_monad :=
  unfold bind, ret, raise, lift, deref, assign, alloc, emit,
    session_get, session_set, session_del.

Ltac unfold_monad_in H :=
  unfold bind, ret, raise, lift, deref, assign, alloc, emit,
    session_get, session_set, session_del in H.

Lemma state_eta s : mkState (heap s) (session s) (trace s) = s.
Proof. now destruct s. Qed.

Lemma init_run su yu sv sk l s :
  py_list sv = Ok l ->
  YadisServiceManager.__init__ su yu sv sk s =
    (Ok (length (heap s)),
     mkState (heap s ++ [mkManager su yu l sk DNone []]) (session s) (trace s)).
Proof.
  intros H. unfold YadisServiceManager.__init__. unfold_monad.
  now rewrite H.
Qed.

Lemma init_fail su yu sv sk e s :
  py_list sv = Raise e ->
  YadisServiceManager.__init__ su yu sv sk s = (Raise e, s).
Proof.
  intros H. unfold YadisServiceManager.__init__. unfold_monad.
  now rewrite H.
Qed.

Lemma next_some a m x rest s :
  heap s !! a = Some m ->
  services m = x :: rest ->
  __next__ a s =
    (Ok x,
     mkState (<[a := set__current x (set_services rest m)]> (heap s))
       (session s) (trace s)).
Proof.
  intros Ha Hs. unfold __next__, next_obj. unfold_monad.
  now rewrite Ha, Hs.
Qed.

Lemma next_empty a m s :
  heap s !! a = Some m ->
  services m = [] ->
  __next__ a s = (Raise StopIteration, s).
Proof.
  intros Ha Hs. unfold __next__, next_obj. unfold_monad.
  rewrite Ha, Hs. simpl.
  rewrite list_insert_id by exact Ha.
  now rewrite state_eta.
Qed.

Lemma store_run a m k s :
  heap s !! a = Some m ->
  hash_key (session_key m) = Ok k ->
  store a s =
    (Ok tt, mkState (heap s) (sess_set k (SRef a) (session s)) (ESet k :: trace s)).
Proof.
  intros Ha Hk. unfold store. unfold_monad.
  now rewrite Ha, Hk.
Qed.

(** [next_n] follows the pending list of the object. *)
Lemma next_n_prefix a : forall n m s,
  heap s !! a = Some m ->
  n <= length (services m) ->
  exists s' m',
    next_n n a s = (Ok (firstn n (services m)), s') /\
    heap s' !! a = Some m' /\
    services m' = skipn n (services m) /\
    (0 < n -> _current m' = List.last (firstn n (services m)) DNone) /\
    (n = 0 -> s' = s) /\
    session s' = session s /\ trace s' = trace s.
Proof.
  induction n as [ | n IHn]; intros m s Ha Hn.
  - exists s, m. simpl. unfold ret. repeat split; auto. lia.
  - destruct (services m) as [ | x rest] eqn:Hs; [simpl in Hn; lia | ].
    simpl in Hn.
    pose (m1 := set__current x (set_services rest m)).
    pose (s1 := mkState (<[a := m1]> (heap s)) (session s) (trace s)).
    assert (H1 : heap s1 !! a = Some m1).
    { simpl. apply list_lookup_insert_eq. now apply lookup_lt_Some in Ha. }
    destruct (IHn m1 s1 H1) as (s' & m' & Ht & Hm' & Hsv & Hcur & Hz & Hse & Htr).
    { simpl. lia. }
    exists s', m'. simpl next_n. unfold bind at 1.
    rewrite (next_some a m x rest s Ha Hs). fold m1. fold s1.
    unfold bind at 1. rewrite Ht. unfold ret. simpl in *.
    repeat split; auto; try lia.
    intros _. destruct n as [ | n'].
    + rewrite (Hz eq_refl) in Hm'.
      simpl in Hm'. assert (m' = m1) as -> by congruence. reflexivity.
    + rewrite Hcur by lia. simpl. destruct rest; [simpl in Hn; lia | reflexivity].
Qed.

(** ** Counting events *)

Lemma discover_calls_app l1 l2 :
  discover_calls (l1 ++ l2) = discover_calls l1 + discover_calls l2.
Proof. unfold discover_calls. now rewrite List.filter_app, length_app. Qed.

Lemma mutations_app l1 l2 : mutations (l1 ++ l2) = mutations l1 + mutations l2.
Proof. unfold mutations. now rewrite List.filter_app, length_app. Qed.

Lemma slot_mutations_le k l : slot_mutations k l <= mutations l.
Proof.
  unfold slot_mutations, mutations.
  induction l as [ | [u | k' | k'] l IHl]; simpl; auto;
    destruct (key_eqb k' k); simpl; lia.
Qed.

Lemma events_of_adds {A} (m : M A) s l :
  trace (snd (m s)) = l ++ trace s -> events_of m s = l.
Proof.
  intros H. unfold events_of. rewrite H, length_app.
  replace (length l + length (trace s) - length (trace s)) with (length l) by lia.
  apply take_app_length.
Qed.

Lemma adds_quiet {A} (m : M A) :
  (forall s, trace (snd (m s)) = trace s) -> adds m 0 0.
Proof. intros H s. exists []. rewrite H. simpl. auto. Qed.

Lemma adds_weaken {A} (m : M A) d n d' n' :
  adds m d n -> d <= d' -> n <= n' -> adds m d' n'.
Proof.
  intros H Hd Hn s. destruct (H s) as (l & Hl & H1 & H2).
  exists l. repeat split; auto; lia.
Qed.

Lemma adds_bind {A B} (m : M A) (f : A -> M B) d1 n1 d2 n2 :
  adds m d1 n1 -> (forall a, adds (f a) d2 n2) ->
  adds (bind m f) (d1 + d2) (n1 + n2).
Proof.
  intros Hm Hf s. unfold bind.
  destruct (Hm s) as (l1 & Hl1 & Hd1 & Hn1).
  destruct (m s) as [[a | e] s1]; simpl in Hl1.
  - destruct (Hf a s1) as (l2 & Hl2 & Hd2 & Hn2).
    exists (l2 ++ l1). rewrite Hl2, Hl1, <- app_assoc.
    rewrite discover_calls_app, mutations_app. repeat split; auto; lia.
  - exists l1. simpl. repeat split; auto; lia.
Qed.

Lemma adds_ret {A} (a : A) : adds (ret a) 0 0.
Proof. now apply adds_quiet. Qed.

Lemma adds_raise {A} e : adds (@raise A e) 0 0.
Proof. now apply adds_quiet. Qed.

Lemma adds_lift {A} (r : result A) : adds (lift r) 0 0.
Proof. destruct r; [apply adds_ret | apply adds_raise]. Qed.

Lemma adds_deref a : adds (deref a) 0 0.
Proof. apply adds_quiet. intros s. unfold deref. now destruct (heap s !! a). Qed.

Lemma adds_assign a m : adds (assign a m) 0 0.
Proof. now apply adds_quiet. Qed.

Lemma adds_alloc m : adds (alloc m) 0 0.
Proof. now apply adds_quiet. Qed.

Lemma adds_session_get k : adds (session_get k) 0 0.
Proof. now apply adds_quiet. Qed.

Lemma adds_session_set k v : adds (session_set k v) 0 1.
Proof. intros s. exists [ESet k]. simpl. auto. Qed.

Lemma adds_session_del k : adds (session_del k) 0 1.
Proof.
  intros s. unfold session_del. destruct (sess_mem k (session s)).
  - exists [EDel k]. simpl. auto.
  - exists []. simpl. auto.
Qed.

Lemma adds_emit_discover u : adds (emit (EDiscover u)) 1 0.
Proof. intros s. exists [EDiscover u]. simpl. auto. Qed.

Create HintDb adds.
#[local] Hint Resolve adds_ret adds_raise adds_lift adds_deref adds_assign
  adds_alloc adds_session_get adds_session_set adds_session_del
  adds_emit_discover : adds.

(** [bind] with the bounds of its two parts given explicitly. *)
Ltac adds_seq d1 n1 d2 n2 :=
  apply (adds_weaken _ (d1 + d2) (n1 + n2));
  [ apply adds_bind | simpl; lia | simpl; lia ].

Lemma adds_init su yu sv sk : adds (YadisServiceManager.__init__ su yu sv sk) 0 0.
Proof.
  unfold YadisServiceManager.__init__.
  adds_seq 0 0 0 0; auto with adds.
Qed.

Lemma adds_next a : adds (__next__ a) 0 0.
Proof.
  unfold __next__. adds_seq 0 0 0 0; auto with adds.
  intros m. destruct (next_obj m) as [r m'].
  adds_seq 0 0 0 0; auto with adds.
Qed.

Lemma adds_store a : adds (store a) 0 1.
Proof.
  unfold store. adds_seq 0 0 0 1; auto with adds.
  intros m. adds_seq 0 0 0 1; auto with adds.
Qed.

Lemma adds_from_dict d : adds (Discovery._from_dict d) 0 0.
Proof.
  unfold Discovery._from_dict.
  adds_seq 0 0 0 0; [apply adds_init | ].
  intros a. adds_seq 0 0 0 0; auto with adds.
  intros m. adds_seq 0 0 0 0; auto with adds.
Qed.

Lemma adds_getManager c f : adds (Discovery.getManager c f) 0 0.
Proof.
  unfold Discovery.getManager.
  adds_seq 0 0 0 0; auto with adds.
  intros v. adds_seq 0 0 0 0.
  - destruct v as [[ | | | | | d] | a]; auto with adds.
    adds_seq 0 0 0 0; [apply adds_from_dict | auto with adds].
  - intros [[ | | | | | d] | a]; auto with adds.
    adds_seq 0 0 0 0; auto with adds.
    intros m. destruct (forURL m (Discovery.url c) || f); auto with adds.
Qed.

Lemma adds_truth o : adds (Discovery.truth o) 0 0.
Proof.
  destruct o as [a | ]; simpl; auto with adds.
  adds_seq 0 0 0 0; auto with adds.
Qed.

Lemma adds_destroyManager c f : adds (Discovery.destroyManager c f) 0 1.
Proof.
  unfold Discovery.destroyManager.
  adds_seq 0 0 0 1; [apply adds_getManager | ].
  intros [a | ]; [auto with adds | ].
  apply (adds_weaken _ 0 0); auto with adds.
Qed.

Lemma adds_createManager c l y : adds (Discovery.createManager c l y) 0 1.
Proof.
  unfold Discovery.createManager.
  adds_seq 0 0 0 1; [apply adds_getManager | ].
  intros o. adds_seq 0 0 0 1; [apply adds_truth | ].
  intros [ | ]; [apply (adds_weaken _ 0 0); auto with adds | ].
  destruct l as [ | x l]; [apply (adds_weaken _ 0 0); auto with adds | ].
  adds_seq 0 0 0 1; [apply adds_init | ].
  intros a. adds_seq 0 1 0 0; [apply adds_store | auto with adds].
Qed.

Lemma adds_call discover u : adds (Discovery.call discover u) 1 0.
Proof.
  unfold Discovery.call. adds_seq 1 0 0 0; auto with adds.
Qed.

Lemma adds_getNextService c discover :
  adds (Discovery.getNextService c discover) 1 3.
Proof.
  unfold Discovery.getNextService.
  adds_seq 0 0 1 3; [apply adds_getManager | ].
  intros o. adds_seq 0 1 1 2.
  { destruct o as [a | ]; [ | apply (adds_weaken _ 0 0); auto with adds].
    adds_seq 0 0 0 1; auto with adds.
    intros m. destruct (negb (__bool__ m)); [apply adds_destroyManager | ].
    apply (adds_weaken _ 0 0); auto with adds. }
  intros _. adds_seq 0 0 1 2; [apply adds_truth | ].
  intros b. adds_seq 1 1 0 1.
  { destruct (negb b); [ | apply (adds_weaken _ 0 0); auto with adds].
    adds_seq 1 0 0 1; [apply adds_call | ].
    intros [y l]. apply adds_createManager. }
  intros [a | ]; [ | apply (adds_weaken _ 0 0); auto with adds].
  adds_seq 0 0 0 1; auto with adds.
  intros m. destruct (__bool__ m); [ | apply (adds_weaken _ 0 0); auto with adds].
  adds_seq 0 0 0 1; [apply adds_next | ].
  intros x. adds_seq 0 1 0 0; [apply adds_store | auto with adds].
Qed.

(** ** Running the methods of Discovery *)

Lemma from_dict_run d l s :
  py_list (dict_get d "services") = Ok l ->
  _from_dict d s =
    (Ok (length (heap s)),
     mkState (heap s ++ [rebuilt d l]) (session s) (trace s)).
Proof.
  intros H. unfold _from_dict. unfold bind at 1.
  rewrite (init_run _ _ _ _ l) by exact H.
  unfold_monad. simpl.
  rewrite heap_lookup_alloc. simpl.
  now rewrite heap_insert_alloc.
Qed.

Lemma from_dict_fail d e s :
  py_list (dict_get d "services") = Raise e ->
  _from_dict d s = (Raise e, s).
Proof.
  intros H. unfold _from_dict. unfold bind at 1.
  now rewrite (init_fail _ _ _ _ e) by exact H.
Qed.

Lemma getManager_none c f s :
  sess_get (slot c) (session s) = SData DNone ->
  getManager c f s = (Ok None, s).
Proof.
  intros H. unfold getManager. unfold_monad. fold (slot c).
  now rewrite H.
Qed.

Lemma getManager_ref c f s a m :
  sess_get (slot c) (session s) = SRef a ->
  heap s !! a = Some m ->
  getManager c f s = (Ok (if forURL m (url c) || f then Some a else None), s).
Proof.
  intros H Ha. unfold getManager. unfold_monad. fold (slot c).
  rewrite H, Ha. now destruct (forURL m (url c) || f).
Qed.

Lemma getManager_dict c f s d l :
  sess_get (slot c) (session s) = SData (DDict d) ->
  py_list (dict_get d "services") = Ok l ->
  getManager c f s =
    (Ok (if forURL (rebuilt d l) (url c) || f
         then Some (length (heap s)) else None),
     mkState (heap s ++ [rebuilt d l]) (session s) (trace s)).
Proof.
  intros H Hl. unfold getManager. unfold bind at 1. unfold session_get.
  fold (slot c). rewrite H. unfold bind at 1. unfold bind at 1.
  rewrite (from_dict_run d l) by exact Hl.
  unfold_monad. simpl. rewrite heap_lookup_alloc.
  now destruct (forURL (rebuilt d l) (url c) || f).
Qed.

Lemma getManager_dict_fail c f s d e :
  sess_get (slot c) (session s) = SData (DDict d) ->
  py_list (dict_get d "services") = Raise e ->
  getManager c f s = (Raise e, s).
Proof.
  intros H Hl. unfold getManager. unfold bind at 1. unfold session_get.
  fold (slot c). rewrite H. unfold bind at 1. unfold bind at 1.
  now rewrite (from_dict_fail d e) by exact Hl.
Qed.

Lemma getManager_inv c f s r s1 :
  getManager c f s = (Ok r, s1) -> loaded c f s r s1.
Proof.
  intros H.
  destruct (sess_get (slot c) (session s)) as [v | a] eqn:Hv.
  - destruct v as [ | u | n | l | l | d];
      try (unfold getManager in H; unfold_monad_in H; fold (slot c) in H;
           rewrite Hv in H; discriminate).
    + rewrite (getManager_none c f s Hv) in H.
      injection H as <- <-. now constructor.
    + destruct (py_list (dict_get d "services")) as [l | e] eqn:Hl.
      * rewrite (getManager_dict c f s d l Hv Hl) in H.
        injection H as <- <-. now constructor.
      * rewrite (getManager_dict_fail c f s d e Hv Hl) in H. discriminate.
  - destruct (heap s !! a) as [m | ] eqn:Ha.
    + rewrite (getManager_ref c f s a m Hv Ha) in H.
      injection H as <- <-. now apply loaded_ref.
    + unfold getManager in H. unfold_monad_in H. fold (slot c) in H.
      rewrite Hv, Ha in H. discriminate.
Qed.

Lemma loaded_run c f s r s1 : loaded c f s r s1 -> getManager c f s = (Ok r, s1).
Proof.
  intros [H | a m H Ha | d l H Hl].
  - now apply getManager_none.
  - now apply getManager_ref.
  - now apply getManager_dict.
Qed.

(** [getManager] leaves the session and the trace alone, and what it finds
    a second time has the contents of what it found the first time. *)
Lemma loaded_frame c f s r s1 :
  loaded c f s r s1 -> session s1 = session s /\ trace s1 = trace s.
Proof. intros [H | a m H Ha | d l H Hl]; auto. Qed.

Lemma loaded_some c f s a s1 :
  loaded c f s (Some a) s1 ->
  sess_mem (slot c) (session s) = true /\
  exists m, heap s1 !! a = Some m /\ forURL m (url c) || f = true.
Proof.
  intros H. inversion H as [H0 | a' m H0 Ha Hr | d l H0 Hl Hr]; subst.
  - destruct (forURL m (url c) || f) eqn:E; [ | discriminate].
    injection Hr as ->. split.
    + apply sess_get_mem. rewrite H0. discriminate.
    + now exists m.
  - destruct (forURL (rebuilt d l) (url c) || f) eqn:E; [ | discriminate].
    injection Hr as <-. split.
    + apply sess_get_mem. rewrite H0. discriminate.
    + exists (rebuilt d l). simpl. now rewrite heap_lookup_alloc.
Qed.

Lemma loaded_again c f s r s1 :
  loaded c f s r s1 ->
  exists r' s2,
    loaded c f s1 r' s2 /\
    (r = None -> r' = None) /\
    (forall a, r = Some a -> exists a', r' = Some a').
Proof.
  intros [H | a m H Ha | d l H Hl].
  - exists None, s. split; [now constructor | split; [auto | discriminate]].
  - exists (if forURL m (url c) || f then Some a else None), s.
    split; [now apply loaded_ref | ].
    destruct (forURL m (url c) || f); split; eauto; discriminate.
  - eexists _, _. split; [apply (loaded_dict _ _ _ d l); simpl; auto | ].
    simpl. destruct (forURL (rebuilt d l) (url c) || f); split; eauto; discriminate.
Qed.

(** ** YadisServiceManager: iteration *)

(** A successful [__next__] returns the head of the pending list, makes it
    the current service and leaves one service fewer. *)
Lemma next_ok_inv a x s s' m :
  heap s !! a = Some m ->
  __next__ a s = (Ok x, s') ->
  exists rest m',
    services m = x :: rest /\
    heap s' !! a = Some m' /\ services m' = rest /\ current m' = x /\
    session s' = session s /\ trace s' = trace s.
Proof.
  intros Ha H.
  destruct (services m) as [ | y rest] eqn:Hs.
  - rewrite (next_empty a m s Ha Hs) in H. discriminate.
  - rewrite (next_some a m y rest s Ha Hs) in H.
    injection H as <- <-.
    exists rest, (set__current y (set_services rest m)). simpl.
    repeat split; auto.
    apply list_lookup_insert_eq. now apply lookup_lt_Some in Ha.
Qed.

(** A run of [n] successful calls followed by a call that raises. *)
Lemma next_n_then_raise a e : forall n s xs s2 s3,
  next_n n a s = (Ok xs, s2) ->
  __next__ a s2 = (Raise e, s3) ->
  fst (next_n (n + 1) a s) = Raise e.
Proof.
  induction n as [ | n IHn]; intros s xs s2 s3 Ht Hstop.
  - simpl in *. unfold ret in Ht. injection Ht as _ ->.
    unfold bind. now rewrite Hstop.
  - simpl in *. unfold bind at 1. unfold bind at 1 in Ht.
    destruct (__next__ a s) as [[x | e'] s1]; [ | discriminate].
    unfold bind at 1. unfold bind at 1 in Ht.
    destruct (next_n n a s1) as [[ys | e'] sn] eqn:Hn; [ | discriminate].
    unfold ret in Ht. injection Ht as _ ->.
    specialize (IHn s1 ys s2 s3 Hn Hstop).
    destruct (next_n (n + 1) a s1) as [[zs | e'] sm]; simpl in *;
      [discriminate | auto].
Qed.

(** C7. For every non-empty candidate sequence [C], a manager constructed
    from [C] hands out, by successive calls of [__next__], exactly the
    elements of [C] in their original order; after [n] successful calls
    [len] is [length C - n], so each successful call decreases it by
    exactly one; the call after the last element raises [StopIteration]. *)
Theorem next_yields_services_in_order su yu sk (C : list data) s :
  C <> [] ->
  exists a s1,
    YadisServiceManager.__init__ su yu (DList C) sk s = (Ok a, s1) /\
    (forall n, n <= length C ->
       exists sn mn,
         next_n n a s1 = (Ok (firstn n C), sn) /\
         heap sn !! a = Some mn /\
         __len__ mn = length C - n) /\
    (exists s2,
       next_n (length C) a s1 = (Ok C, s2) /\
       __next__ a s2 = (Raise StopIteration, s2) /\
       fst (next_n (S (length C)) a s1) = Raise StopIteration) /\
    (forall t x t' m,
       heap t !! a = Some m ->
       __next__ a t = (Ok x, t') ->
       exists m', heap t' !! a = Some m' /\ __len__ m = S (__len__ m')).
Proof.
  intros _.
  pose (m0 := mkManager su yu C sk DNone []).
  pose (s1 := mkState (heap s ++ [m0]) (session s) (trace s)).
  assert (H0 : heap s1 !! length (heap s) = Some m0)
    by (simpl; apply heap_lookup_alloc).
  exists (length (heap s)), s1. split; [now apply init_run | ].
  split; [ | split].
  - intros n Hn.
    destruct (next_n_prefix (length (heap s)) n m0 s1 H0 Hn)
      as (sn & mn & Ht & Hmn & Hsv & _).
    exists sn, mn. repeat split; auto.
    unfold __len__. rewrite Hsv. simpl. now rewrite length_drop.
  - destruct (next_n_prefix (length (heap s)) (length C) m0 s1 H0 (le_n _))
      as (s2 & m2 & Ht & Hm2 & Hsv & _).
    simpl in Ht, Hsv. rewrite firstn_all in Ht. rewrite drop_all in Hsv.
    exists s2. split; [exact Ht | ].
    assert (Hstop : __next__ (length (heap s)) s2 = (Raise StopIteration, s2))
      by now apply (next_empty _ m2).
    split; [exact Hstop | ].
    replace (S (length C)) with (length C + 1) by lia.
    now apply (next_n_then_raise _ _ _ _ C s2 s2 Ht).
  - intros t x t' m Ha H.
    destruct (next_ok_inv _ _ _ _ _ Ha H) as (rest & m' & Hs & Hm' & Hr & _).
    exists m'. split; [exact Hm' | ].
    unfold __len__. now rewrite Hs, Hr.
Qed.

(** C10. [__next__] on a manager whose pending list is empty raises
    [StopIteration] and changes nothing: the store is the same, so
    [current] still returns the service handed out last and the pending
    list stays empty. *)
Theorem next_on_exhausted_leaves_state a m s :
  heap s !! a = Some m ->
  services m = [] ->
  next_obj m = (Raise StopIteration, m) /\
  __next__ a s = (Raise StopIteration, s) /\
  (forall s', snd (__next__ a s) = s' ->
     exists m', heap s' !! a = Some m' /\
       current m' = current m /\ services m' = []).
Proof.
  intros Ha Hs. split; [ | split].
  - unfold next_obj. now rewrite Hs.
  - now apply (next_empty a m).
  - intros s' <-. rewrite (next_empty a m s Ha Hs). simpl.
    exists m. auto.
Qed.

(** ** Discovery.getManager *)

Lemma forURL_iff m u :
  forURL m u = true <-> starting_url m = DStr u \/ yadis_url m = DStr u.
Proof.
  unfold forURL. simpl. rewrite orb_false_r, orb_true_iff.
  assert (E : forall v, str_eq u v = true <-> v = DStr u).
  { intros v. destruct v; simpl; try (split; [discriminate | discriminate]).
    rewrite String.eqb_eq. split; [now intros -> | now intros [= ->]]. }
  now rewrite !E.
Qed.

(** C9. With a manager [Q] stored in the slot, [getManager(force)] returns
    [Q] when [force] is true or [Q.forURL(url)] holds and [None] otherwise,
    and [forURL(u)] is true exactly when [u] is the starting URL or the
    Yadis URL of the manager.  So a [Discovery] for a URL that is neither
    finds [None] unless [force] is true. *)
Theorem getManager_returns_stored_iff_owned c force s a Q :
  sess_get (slot c) (session s) = SRef a ->
  heap s !! a = Some Q ->
  (getManager c force s = (Ok (Some a), s) <->
     force = true \/ forURL Q (url c) = true) /\
  (~ (force = true \/ forURL Q (url c) = true) ->
     getManager c force s = (Ok None, s)) /\
  (forall u, forURL Q u = true <->
     starting_url Q = DStr u \/ yadis_url Q = DStr u) /\
  (starting_url Q <> DStr (url c) -> yadis_url Q <> DStr (url c) ->
     getManager c false s = (Ok None, s) /\
     getManager c true s = (Ok (Some a), s)).
Proof.
  intros Hv Ha.
  pose proof (getManager_ref c force s a Q Hv Ha) as E.
  split; [ | split; [ | split]].
  - rewrite E. destruct (forURL Q (url c)), force; simpl; split; auto;
      try discriminate; intros [ | ]; discriminate.
  - intros Hn. rewrite E.
    destruct (forURL Q (url c)), force; simpl; auto; exfalso; apply Hn; auto.
  - intros u. apply forURL_iff.
  - intros H1 H2.
    assert (Hf : forURL Q (url c) = false).
    { destruct (forURL Q (url c)) eqn:Hf; [ | reflexivity].
      apply forURL_iff in Hf. tauto. }
    rewrite (getManager_ref c false s a Q Hv Ha).
    rewrite (getManager_ref c true s a Q Hv Ha).
    now rewrite Hf.
Qed.

(** ** Running Discovery step by step *)

Lemma bind_ok {A B} (m : M A) (f : A -> M B) s a s' :
  m s = (Ok a, s') -> bind m f s = f a s'.
Proof. intros H. unfold bind. now rewrite H. Qed.

Lemma deref_run a m s : heap s !! a = Some m -> deref a s = (Ok m, s).
Proof. intros H. unfold deref. now rewrite H. Qed.

Lemma truth_none s : truth None s = (Ok false, s).
Proof. reflexivity. Qed.

Lemma truth_some a m s :
  heap s !! a = Some m -> truth (Some a) s = (Ok (__bool__ m), s).
Proof. intros H. simpl. unfold bind, ret. now rewrite (deref_run a m s H). Qed.

Lemma call_run discover u r s :
  discover u = Ok r ->
  call discover u s = (Ok r, mkState (heap s) (session s) (EDiscover u :: trace s)).
Proof. intros H. unfold call. unfold_monad. now rewrite H. Qed.

Lemma session_del_run k s :
  sess_mem k (session s) = true ->
  session_del k s =
    (Ok tt, mkState (heap s) (sess_del k (session s)) (EDel k :: trace s)).
Proof. intros H. unfold session_del. now rewrite H. Qed.

Lemma loaded_heap c f s r s1 :
  loaded c f s r s1 -> exists ext, heap s1 = heap s ++ ext.
Proof.
  intros [H | a m H Ha | d l H Hl].
  - exists []. now rewrite app_nil_r.
  - exists []. now rewrite app_nil_r.
  - now exists [rebuilt d l].
Qed.

Lemma loaded_keeps c f s r s1 a m :
  loaded c f s r s1 -> heap s !! a = Some m -> heap s1 !! a = Some m.
Proof.
  intros H Ha. destruct (loaded_heap _ _ _ _ _ H) as [ext ->].
  now apply lookup_app_l_Some.
Qed.

Lemma loaded_add_event c f s r s1 e :
  loaded c f s r s1 ->
  loaded c f (mkState (heap s) (session s) (e :: trace s)) r
    (mkState (heap s1) (session s1) (e :: trace s)).
Proof.
  intros [H | a m H Ha | d l H Hl].
  - now constructor.
  - now apply (loaded_ref c f _ a m).
  - exact (loaded_dict c f (mkState (heap s) (session s) (e :: trace s)) d l H Hl).
Qed.

Lemma destroyManager_some c f s a s1 :
  loaded c f s (Some a) s1 ->
  destroyManager c f s =
    (Ok tt,
     mkState (heap s1) (sess_del (slot c) (session s)) (EDel (slot c) :: trace s)).
Proof.
  intros H. unfold destroyManager.
  rewrite (bind_ok _ _ _ _ _ (loaded_run _ _ _ _ _ H)).
  destruct (loaded_frame _ _ _ _ _ H) as [Hs Ht].
  destruct (loaded_some _ _ _ _ _ H) as [Hm _].
  fold (slot c). rewrite session_del_run by now rewrite Hs.
  now rewrite Hs, Ht.
Qed.

Lemma destroyManager_none c f s s1 :
  loaded c f s None s1 -> destroyManager c f s = (Ok tt, s1).
Proof.
  intros H. unfold destroyManager.
  now rewrite (bind_ok _ _ _ _ _ (loaded_run _ _ _ _ _ H)).
Qed.

Lemma createManager_empty c y s s1 :
  loaded c false s None s1 -> createManager c [] y s = (Ok None, s1).
Proof.
  intros H. unfold createManager.
  rewrite (bind_ok _ _ _ _ _ (loaded_run _ _ _ _ _ H)).
  now rewrite (bind_ok _ _ _ _ _ (truth_none s1)).
Qed.

Lemma create_and_store c y x l s1 :
  (manager <- YadisServiceManager.__init__
                (DStr (url c)) y (DList (x :: l)) (DStr (getSessionKey c)) ;;
   store manager ;;; ret (Some manager)) s1 =
  (Ok (Some (length (heap s1))), stored c y (x :: l) s1).
Proof.
  rewrite (bind_ok _ _ _ _ _
    (init_run (DStr (url c)) y (DList (x :: l)) (DStr (getSessionKey c))
       (x :: l) s1 eq_refl)).
  erewrite bind_ok; [reflexivity | ].
  erewrite store_run; [reflexivity | simpl; apply heap_lookup_alloc | reflexivity].
Qed.

Lemma createManager_fresh c y x l s s1 :
  loaded c false s None s1 ->
  createManager c (x :: l) y s =
    (Ok (Some (length (heap s1))), stored c y (x :: l) s1).
Proof.
  intros H. unfold createManager.
  rewrite (bind_ok _ _ _ _ _ (loaded_run _ _ _ _ _ H)).
  rewrite (bind_ok _ _ _ _ _ (truth_none s1)).
  apply create_and_store.
Qed.

(** With an exhausted manager in the slot [createManager] does not raise:
    the test is on the truth value of the manager. *)
Lemma createManager_over_exhausted c y x l s a s1 m :
  loaded c false s (Some a) s1 ->
  heap s1 !! a = Some m ->
  services m = [] ->
  createManager c (x :: l) y s =
    (Ok (Some (length (heap s1))), stored c y (x :: l) s1).
Proof.
  intros H Ha Hs. unfold createManager.
  rewrite (bind_ok _ _ _ _ _ (loaded_run _ _ _ _ _ H)).
  rewrite (bind_ok _ _ _ _ _ (truth_some a m s1 Ha)).
  unfold __bool__, __len__. rewrite Hs. simpl.
  apply create_and_store.
Qed.

Lemma createManager_exists c y l s a s1 m :
  loaded c false s (Some a) s1 ->
  heap s1 !! a = Some m ->
  services m <> [] ->
  createManager c l y s = (Raise KeyError, s1).
Proof.
  intros H Ha Hs. unfold createManager.
  rewrite (bind_ok _ _ _ _ _ (loaded_run _ _ _ _ _ H)).
  rewrite (bind_ok _ _ _ _ _ (truth_some a m s1 Ha)).
  unfold __bool__, __len__. destruct (services m); [congruence | reflexivity].
Qed.

(** The last step of [getNextService] on a manager with pending
    services: take the first one and store the manager. *)
Lemma hand_out a m x rest k s :
  heap s !! a = Some m ->
  services m = x :: rest ->
  hash_key (session_key m) = Ok k ->
  (m <- deref a ;;
   if __bool__ m then
     service <- __next__ a ;;
     store a ;;;
     ret service
   else ret DNone) s =
  (Ok x,
   mkState (<[a := set__current x (set_services rest m)]> (heap s))
     (sess_set k (SRef a) (session s)) (ESet k :: trace s)).
Proof.
  intros Ha Hs Hk.
  rewrite (bind_ok _ _ _ _ _ (deref_run a m s Ha)).
  unfold __bool__, __len__. rewrite Hs. simpl.
  rewrite (bind_ok _ _ _ _ _ (next_some a m x rest s Ha Hs)).
  erewrite bind_ok; [reflexivity | ].
  apply lookup_lt_Some in Ha.
  erewrite store_run;
    [reflexivity | simpl; now apply list_lookup_insert_eq | simpl; exact Hk].
Qed.

Lemma forURL_created c y l : forURL (created c y l) (url c) = true.
Proof. unfold forURL. simpl. now rewrite String.eqb_refl. Qed.

(** [getNextService] with nothing in the slot: discover, create, hand out
    the first service. *)
Lemma getNextService_fresh c discover y x rest s :
  sess_get (slot c) (session s) = SData DNone ->
  discover (url c) = Ok (y, x :: rest) ->
  getNextService c discover s =
    (Ok x,
     mkState
       (heap s ++ [set__current x (set_services rest (created c y (x :: rest)))])
       (sess_set (slot c) (SRef (length (heap s)))
          (sess_set (slot c) (SRef (length (heap s))) (session s)))
       (ESet (slot c) :: ESet (slot c) :: EDiscover (url c) :: trace s)).
Proof.
  intros H0 Hd. unfold getNextService.
  rewrite (bind_ok _ _ _ _ _ (getManager_none c false s H0)).
  unfold bind at 1. unfold ret at 1.
  rewrite (bind_ok _ _ _ _ _ (truth_none s)). cbn [negb]. cbv beta iota.
  unfold bind at 1. unfold bind at 1.
  rewrite (call_run discover (url c) (y, x :: rest) s Hd). cbv beta iota.
  rewrite (createManager_fresh c y x rest _ _
             (loaded_none c false
                (mkState (heap s) (session s) (EDiscover (url c) :: trace s)) H0)).
  cbn [heap session trace].
  rewrite (hand_out (length (heap s)) (created c y (x :: rest)) x rest (slot c)).
  - simpl. now rewrite heap_insert_alloc.
  - simpl. apply heap_lookup_alloc.
  - reflexivity.
  - reflexivity.
Qed.

(** [getNextService] when [getManager] finds nothing for this URL (an
    empty slot, or a manager or plain dict that belongs to another URL):
    discover, create in the slot, hand out the first service. *)
Lemma getNextService_discovers c discover y x rest s s0 :
  loaded c false s None s0 ->
  discover (url c) = Ok (y, x :: rest) ->
  exists s1 a,
    getNextService c discover s = (Ok x, s1) /\
    sess_get (slot c) (session s1) = SRef a /\
    heap s1 !! a =
      Some (set__current x (set_services rest (created c y (x :: rest)))) /\
    trace s1 = ESet (slot c) :: ESet (slot c) :: EDiscover (url c) :: trace s.
Proof.
  intros L Hd.
  destruct (loaded_frame _ _ _ _ _ L) as [Hse Htr].
  destruct (loaded_again _ _ _ _ _ L) as (r' & s2 & L' & Hnone & _).
  rewrite (Hnone eq_refl) in L'.
  destruct (loaded_frame _ _ _ _ _ L') as [Hse' Htr'].
  pose proof (loaded_add_event _ _ _ _ _ (EDiscover (url c)) L') as L2.
  unfold getNextService.
  rewrite (bind_ok _ _ _ _ _ (loaded_run _ _ _ _ _ L)).
  unfold bind at 1. unfold ret at 1.
  rewrite (bind_ok _ _ _ _ _ (truth_none s0)). cbn [negb]. cbv beta iota.
  unfold bind at 1. unfold bind at 1.
  rewrite (call_run discover (url c) (y, x :: rest) s0 Hd). cbv beta iota.
  rewrite (createManager_fresh c y x rest _ _ L2).
  cbn [heap session trace].
  rewrite (hand_out (length (heap s2)) (created c y (x :: rest)) x rest (slot c));
    [ | simpl; apply heap_lookup_alloc | reflexivity | reflexivity ].
  eexists _, (length (heap s2)). split; [reflexivity | ]. simpl.
  split; [apply sess_get_set_eq | ].
  split; [rewrite heap_insert_alloc; apply heap_lookup_alloc | ].
  now rewrite Htr.
Qed.

(** [getNextService] when [getManager] finds a manager with pending
    services, stored as an object or rebuilt from a plain dict: hand out
    the next service and store the manager under its own session key. *)
Lemma getNextService_hands_out c discover a m x rest k s s0 :
  loaded c false s (Some a) s0 ->
  heap s0 !! a = Some m ->
  services m = x :: rest ->
  hash_key (session_key m) = Ok k ->
  getNextService c discover s =
    (Ok x,
     mkState (<[a := set__current x (set_services rest m)]> (heap s0))
       (sess_set k (SRef a) (session s)) (ESet k :: trace s)).
Proof.
  intros L Ha Hs Hk.
  destruct (loaded_frame _ _ _ _ _ L) as [Hse Htr].
  unfold getNextService.
  rewrite (bind_ok _ _ _ _ _ (loaded_run _ _ _ _ _ L)).
  unfold bind at 1. rewrite (bind_ok _ _ _ _ _ (deref_run a m s0 Ha)).
  assert (Hb : __bool__ m = true) by (unfold __bool__, __len__; now rewrite Hs).
  rewrite Hb. cbn [negb]. cbv beta iota. unfold ret at 1.
  rewrite (bind_ok _ _ _ _ _ (truth_some a m s0 Ha)).
  rewrite Hb. cbn [negb]. cbv beta iota.
  unfold bind at 1. unfold ret at 1.
  rewrite (hand_out a m x rest k s0 Ha Hs Hk).
  now rewrite Hse, Htr.
Qed.

(** [getNextService] when [getManager] finds an exhausted manager: delete
    the slot, discover again, create, hand out the first service. *)
Lemma getNextService_rediscovers c discover a m y x rest s s0 :
  loaded c false s (Some a) s0 ->
  heap s0 !! a = Some m ->
  services m = [] ->
  discover (url c) = Ok (y, x :: rest) ->
  exists s1 a',
    getNextService c discover s = (Ok x, s1) /\
    sess_get (slot c) (session s1) = SRef a' /\
    heap s1 !! a' =
      Some (set__current x (set_services rest (created c y (x :: rest)))) /\
    trace s1 =
      ESet (slot c) :: ESet (slot c) :: EDiscover (url c)
        :: EDel (slot c) :: trace s.
Proof.
  intros L Ha Hs Hd.
  destruct (loaded_frame _ _ _ _ _ L) as [Hse Htr].
  destruct (loaded_again _ _ _ _ _ L) as (r' & s2 & L' & _ & Hsome).
  destruct (Hsome a eq_refl) as [a' ->].
  assert (Hb : __bool__ m = false) by (unfold __bool__, __len__; now rewrite Hs).
  unfold getNextService.
  rewrite (bind_ok _ _ _ _ _ (loaded_run _ _ _ _ _ L)).
  unfold bind at 1. rewrite (bind_ok _ _ _ _ _ (deref_run a m s0 Ha)).
  rewrite Hb. cbn [negb]. cbv beta iota.
  rewrite (destroyManager_some c false s0 a' s2 L').
  set (s3 := mkState (heap s2) (sess_del (slot c) (session s0))
               (EDel (slot c) :: trace s0)).
  assert (Ha3 : heap s3 !! a = Some m) by (simpl; eapply loaded_keeps; eauto).
  rewrite (bind_ok _ _ _ _ _ (truth_some a m s3 Ha3)).
  rewrite Hb. cbn [negb]. cbv beta iota.
  unfold bind at 1. unfold bind at 1.
  rewrite (call_run discover (url c) (y, x :: rest) s3 Hd). cbv beta iota.
  assert (H1 : sess_get (slot c) (sess_del (slot c) (session s0)) = SData DNone)
    by apply sess_get_del_eq.
  rewrite (createManager_fresh c y x rest _ _
             (loaded_none c false
                (mkState (heap s3) (session s3) (EDiscover (url c) :: trace s3))
                H1)).
  cbn [heap session trace s3].
  rewrite (hand_out (length (heap s2)) (created c y (x :: rest)) x rest (slot c));
    [ | simpl; apply heap_lookup_alloc | reflexivity | reflexivity ].
  eexists _, (length (heap s2)). split; [reflexivity | ]. simpl.
  split; [apply sess_get_set_eq | ].
  split; [rewrite heap_insert_alloc; apply heap_lookup_alloc | ].
  now rewrite Htr.
Qed.

(** [getNextService] with a manager for this URL in the slot that has
    pending services: hand out the next one. *)
Lemma getNextService_reuse c discover a m x rest k s :
  sess_get (slot c) (session s) = SRef a ->
  heap s !! a = Some m ->
  forURL m (url c) = true ->
  services m = x :: rest ->
  hash_key (session_key m) = Ok k ->
  getNextService c discover s =
    (Ok x,
     mkState (<[a := set__current x (set_services rest m)]> (heap s))
       (sess_set k (SRef a) (session s)) (ESet k :: trace s)).
Proof.
  intros H0 Ha Hf Hs Hk. unfold getNextService.
  rewrite (bind_ok _ _ _ _ _ (getManager_ref c false s a m H0 Ha)).
  rewrite Hf. simpl orb. cbv iota.
  unfold bind at 1. rewrite (bind_ok _ _ _ _ _ (deref_run a m s Ha)).
  assert (Hb : __bool__ m = true) by (unfold __bool__, __len__; now rewrite Hs).
  rewrite Hb. cbn [negb]. cbv beta iota. unfold ret at 1.
  rewrite (bind_ok _ _ _ _ _ (truth_some a m s Ha)).
  rewrite Hb. cbn [negb]. cbv beta iota.
  unfold bind at 1. unfold ret at 1.
  now apply hand_out.
Qed.

(** [getNextService] with an exhausted manager for this URL in the slot:
    delete it, discover again, create, hand out the first service. *)
Lemma getNextService_rediscover c discover a m y x rest s :
  sess_get (slot c) (session s) = SRef a ->
  heap s !! a = Some m ->
  forURL m (url c) = true ->
  services m = [] ->
  discover (url c) = Ok (y, x :: rest) ->
  getNextService c discover s =
    (Ok x,
     mkState
       (heap s ++ [set__current x (set_services rest (created c y (x :: rest)))])
       (sess_set (slot c) (SRef (length (heap s)))
          (sess_set (slot c) (SRef (length (heap s)))
             (sess_del (slot c) (session s))))
       (ESet (slot c) :: ESet (slot c) :: EDiscover (url c)
          :: EDel (slot c) :: trace s)).
Proof.
  intros H0 Ha Hf Hs Hd. unfold getNextService.
  pose proof (loaded_ref c false s a m H0 Ha) as L.
  rewrite Hf in L. simpl in L.
  rewrite (bind_ok _ _ _ _ _ (loaded_run _ _ _ _ _ L)).
  unfold bind at 1. rewrite (bind_ok _ _ _ _ _ (deref_run a m s Ha)).
  assert (Hb : __bool__ m = false) by (unfold __bool__, __len__; now rewrite Hs).
  rewrite Hb. cbn [negb]. cbv beta iota.
  rewrite (destroyManager_some c false s a s L).
  set (s1 := mkState (heap s) (sess_del (slot c) (session s))
                     (EDel (slot c) :: trace s)).
  rewrite (bind_ok _ _ _ _ _ (truth_some a m s1 Ha)).
  rewrite Hb. cbn [negb]. cbv beta iota.
  unfold bind at 1. unfold bind at 1.
  rewrite (call_run discover (url c) (y, x :: rest) s1 Hd).
  assert (H1 : sess_get (slot c) (sess_del (slot c) (session s)) = SData DNone)
    by apply sess_get_del_eq.
  cbv beta iota.
  rewrite (createManager_fresh c y x rest _ _
             (loaded_none c false
                (mkState (heap s1) (session s1) (EDiscover (url c) :: trace s1))
                H1)).
  cbn [heap session trace s1].
  rewrite (hand_out (length (heap s)) (created c y (x :: rest)) x rest (slot c)).
  - simpl. now rewrite heap_insert_alloc.
  - simpl. apply heap_lookup_alloc.
  - reflexivity.
  - reflexivity.
Qed.

Lemma cleanup_some c f s a s1 m :
  loaded c f s (Some a) s1 ->
  heap s1 !! a = Some m ->
  exists s2,
    cleanup c f s = (Ok (current m), s2) /\
    session s2 = sess_del (slot c) (session s) /\
    trace s2 = EDel (slot c) :: trace s.
Proof.
  intros L Ha. unfold cleanup.
  rewrite (bind_ok _ _ _ _ _ (loaded_run _ _ _ _ _ L)).
  rewrite (bind_ok _ _ _ _ _ (deref_run a m s1 Ha)).
  destruct (loaded_again _ _ _ _ _ L) as (r' & s2 & L' & _ & Hsome).
  destruct (Hsome a eq_refl) as [a' ->].
  rewrite (bind_ok _ _ _ _ _ (destroyManager_some c f s1 a' s2 L')).
  destruct (loaded_frame _ _ _ _ _ L) as [Hse Htr].
  eexists. split; [reflexivity | ]. simpl. now rewrite Hse, Htr.
Qed.

Lemma cleanup_none c f s s1 :
  loaded c f s None s1 -> cleanup c f s = (Ok DNone, s1).
Proof.
  intros L. unfold cleanup.
  now rewrite (bind_ok _ _ _ _ _ (loaded_run _ _ _ _ _ L)).
Qed.


Lemma sess_mem_del_other k k0 s :
  sess_mem k (sess_del k0 s) = true -> sess_mem k s = true.
Proof.
  induction s as [ | [k' v'] s IHs]; simpl; [auto | ].
  destruct (key_eqb k' k0); simpl.
  - intros H. rewrite (IHs H). apply orb_true_r.
  - destruct (key_eqb k' k); simpl; auto.
Qed.

(** ** Discovery.getNextService: the scenarios *)

(** C4. From an empty session, with a discovery function that returns
    [("https://id.example/x", [S1, S2])] for the URL: the first call of
    [getNextService] returns [S1]; the second returns [S2] without a
    discovery; the third finds the stored manager exhausted, deletes it,
    calls the discovery function again and returns [S1].  (Events are
    listed newest first.) *)
Theorem getNextService_scenario_A c discover S1 S2 h t :
  discover (url c) = Ok (DStr "https://id.example/x", [S1; S2]) ->
  exists s1 s2 s3 a m2,
    getNextService c discover (mkState h [] t) = (Ok S1, s1) /\
    events_of (getNextService c discover) (mkState h [] t) =
      [ESet (slot c); ESet (slot c); EDiscover (url c)] /\
    getNextService c discover s1 = (Ok S2, s2) /\
    events_of (getNextService c discover) s1 = [ESet (slot c)] /\
    sess_get (slot c) (session s2) = SRef a /\
    heap s2 !! a = Some m2 /\ __len__ m2 = 0 /\
    getNextService c discover s2 = (Ok S1, s3) /\
    events_of (getNextService c discover) s2 =
      [ESet (slot c); ESet (slot c); EDiscover (url c); EDel (slot c)] /\
    sess_get (slot c) (session s3) <> SRef a.
Proof.
  intros Hd.
  set (y := DStr "https://id.example/x") in *.
  set (s0 := mkState h [] t).
  set (a := length h).
  set (v := SRef a).
  set (m0 := created c y [S1; S2]).
  set (m1 := set__current S1 (set_services [S2] m0)).
  set (m2 := set__current S2 (set_services [] m1)).
  set (s1 := mkState (h ++ [m1]) (sess_set (slot c) v (sess_set (slot c) v []))
               (ESet (slot c) :: ESet (slot c) :: EDiscover (url c) :: t)).
  set (s2 := mkState (<[a := m2]> (heap s1)) (sess_set (slot c) v (session s1))
               (ESet (slot c) :: trace s1)).
  assert (E1 : getNextService c discover s0 = (Ok S1, s1))
    by (apply getNextService_fresh; [reflexivity | exact Hd]).
  assert (G1 : sess_get (slot c) (session s1) = v) by apply sess_get_set_eq.
  assert (A1 : heap s1 !! a = Some m1) by apply heap_lookup_alloc.
  assert (E2 : getNextService c discover s1 = (Ok S2, s2)).
  { apply (getNextService_reuse c discover a m1 S2 [] (slot c)); auto.
    apply forURL_created. }
  assert (G2 : sess_get (slot c) (session s2) = v) by apply sess_get_set_eq.
  assert (A2 : heap s2 !! a = Some m2).
  { simpl. unfold a. now rewrite heap_insert_alloc, heap_lookup_alloc. }
  pose proof (getNextService_rediscover c discover a m2 y S1 [S2] s2
                G2 A2 (forURL_created c y _) eq_refl Hd) as E3.
  eexists s1, s2, _, a, m2.
  split; [exact E1 | ]. split; [apply events_of_adds; now rewrite E1 | ].
  split; [exact E2 | ]. split; [apply events_of_adds; now rewrite E2 | ].
  split; [exact G2 | ]. split; [exact A2 | ]. split; [reflexivity | ].
  split; [exact E3 | ]. split; [apply events_of_adds; now rewrite E3 | ].
  simpl session. rewrite sess_get_set_eq.
  intros [= H]. rewrite length_insert, length_app in H. simpl in H. lia.
Qed.

(** C8. When [getManager] finds no manager, or one with no pending
    services, and the discovery function returns no services for the URL,
    [getNextService] returns [None] as an ordinary result; the only events
    are the discovery call and, for an exhausted manager, the delete of the
    slot, so no session entry is set and no key is added. *)
Theorem getNextService_nothing_discovered c discover y s :
  discover (url c) = Ok (y, []) ->
  (forall s1,
     getManager c false s = (Ok None, s1) ->
     exists s',
       getNextService c discover s = (Ok DNone, s') /\
       session s' = session s /\
       trace s' = EDiscover (url c) :: trace s) /\
  (forall a s1 m,
     getManager c false s = (Ok (Some a), s1) ->
     heap s1 !! a = Some m ->
     __len__ m = 0 ->
     exists s',
       getNextService c discover s = (Ok DNone, s') /\
       session s' = sess_del (slot c) (session s) /\
       trace s' = EDiscover (url c) :: EDel (slot c) :: trace s /\
       forall k, sess_mem k (session s') = true -> sess_mem k (session s) = true).
Proof.
  intros Hd. split.
  - intros s1 H. apply getManager_inv in H.
    destruct (loaded_frame _ _ _ _ _ H) as [Hse Htr].
    destruct (loaded_again _ _ _ _ _ H) as (r' & s2 & L' & Hnone & _).
    rewrite (Hnone eq_refl) in L'.
    destruct (loaded_frame _ _ _ _ _ L') as [Hse' Htr'].
    unfold getNextService.
    rewrite (bind_ok _ _ _ _ _ (loaded_run _ _ _ _ _ H)).
    unfold bind at 1. unfold ret at 1.
    rewrite (bind_ok _ _ _ _ _ (truth_none s1)). cbn [negb]. cbv beta iota.
    unfold bind at 1. unfold bind at 1.
    rewrite (call_run discover (url c) (y, []) s1 Hd). cbv beta iota.
    pose proof (loaded_add_event _ _ _ _ _ (EDiscover (url c)) L') as L2.
    rewrite (createManager_empty c y _ _ L2).
    eexists. split; [reflexivity | ]. simpl. split; congruence.
  - intros a s1 m H Ha Hlen. apply getManager_inv in H.
    destruct (loaded_frame _ _ _ _ _ H) as [Hse Htr].
    destruct (loaded_again _ _ _ _ _ H) as (r' & s2 & L' & _ & Hsome).
    destruct (Hsome a eq_refl) as [a' ->].
    assert (Hb : __bool__ m = false) by (unfold __bool__; now rewrite Hlen).
    unfold getNextService.
    rewrite (bind_ok _ _ _ _ _ (loaded_run _ _ _ _ _ H)).
    unfold bind at 1. rewrite (bind_ok _ _ _ _ _ (deref_run a m s1 Ha)).
    rewrite Hb. cbn [negb]. cbv beta iota.
    rewrite (destroyManager_some c false s1 a' s2 L').
    set (s3 := mkState (heap s2) (sess_del (slot c) (session s1))
                 (EDel (slot c) :: trace s1)).
    assert (Ha3 : heap s3 !! a = Some m) by (simpl; eapply loaded_keeps; eauto).
    rewrite (bind_ok _ _ _ _ _ (truth_some a m s3 Ha3)).
    rewrite Hb. cbn [negb]. cbv beta iota.
    unfold bind at 1. unfold bind at 1.
    rewrite (call_run discover (url c) (y, []) s3 Hd). cbv beta iota.
    assert (H1 : sess_get (slot c) (sess_del (slot c) (session s1)) = SData DNone)
      by apply sess_get_del_eq.
    rewrite (createManager_empty c y _ _
               (loaded_none c false
                  (mkState (heap s3) (session s3) (EDiscover (url c) :: trace s3))
                  H1)).
    eexists. split; [reflexivity | ]. simpl.
    rewrite Hse, Htr. repeat split; auto.
    intros k. apply sess_mem_del_other.
Qed.

Lemma key_eqb_eq : forall a b, key_eqb a b = true -> a = b.
Proof.
  fix IH 1. intros [ | s | n | xs] [ | u | m | ys]; simpl; try discriminate;
    intros H.
  - reflexivity.
  - apply String.eqb_eq in H. now subst.
  - apply Nat.eqb_eq in H. now subst.
  - f_equal. revert ys H.
    induction xs as [ | x xs IHxs]; intros [ | y ys] H; try discriminate; auto.
    apply andb_true_iff in H as [H1 H2].
    f_equal; [now apply IH | now apply IHxs].
Qed.

Lemma sess_get_set_ne k k0 v s :
  key_eqb k k0 = false -> sess_get k0 (sess_set k v s) = sess_get k0 s.
Proof.
  intros Hne. induction s as [ | [k' v'] s IHs]; simpl.
  - now rewrite Hne.
  - destruct (key_eqb k' k) eqn:E; simpl.
    + apply key_eqb_eq in E. subst k'. now rewrite Hne.
    + now rewrite IHs.
Qed.

Lemma sess_get_set_ref k k0 a s :
  sess_get k0 s = SRef a -> sess_get k0 (sess_set k (SRef a) s) = SRef a.
Proof.
  intros H. destruct (key_eqb k k0) eqn:E.
  - apply key_eqb_eq in E. subst. apply sess_get_set_eq.
  - now rewrite sess_get_set_ne.
Qed.

(** ** Discovery.cleanup *)

(** After a call of [getNextService] that has left in the slot a manager
    for this URL whose current service is [x], [cleanup] returns [x] and
    removes the slot, and a second [cleanup] returns [None]. *)
Lemma cleanup_after_hand_out c force s1 a m x :
  sess_get (slot c) (session s1) = SRef a ->
  heap s1 !! a = Some m ->
  forURL m (url c) = true ->
  current m = x ->
  exists s2,
    cleanup c force s1 = (Ok x, s2) /\
    sess_mem (slot c) (session s2) = false /\
    cleanup c force s2 = (Ok DNone, s2).
Proof.
  intros H0 Ha Hf Hx.
  pose proof (loaded_ref c force s1 a m H0 Ha) as L.
  rewrite Hf in L. simpl in L.
  destruct (cleanup_some c force s1 a s1 m L Ha) as (s2 & Hc & Hse & _).
  exists s2. rewrite Hx in Hc. split; [exact Hc | ].
  rewrite Hse. split; [apply sess_mem_del_eq | ].
  apply cleanup_none. constructor. rewrite Hse. apply sess_get_del_eq.
Qed.

(** C6. When [getManager(force)] yields a manager, [cleanup(force)]
    returns its current service and removes the slot; when it yields
    [None], [cleanup] returns [None] and the session is as before.  So
    after one call of [getNextService] that handed out a service [x] and
    left the manager in the slot (after a discovery when [getManager] found
    nothing, from the manager that [getManager] found with pending
    services, or after a new discovery when that manager was exhausted),
    [cleanup] returns [x] and removes the slot, and a second [cleanup]
    returns [None]. *)
Theorem cleanup_returns_current_and_removes_slot c force s :
  (forall a s1,
     getManager c force s = (Ok (Some a), s1) ->
     exists m s2,
       heap s1 !! a = Some m /\
       cleanup c force s = (Ok (current m), s2) /\
       session s2 = sess_del (slot c) (session s) /\
       sess_mem (slot c) (session s2) = false) /\
  (forall s1,
     getManager c force s = (Ok None, s1) ->
     cleanup c force s = (Ok DNone, s1) /\ session s1 = session s) /\
  (forall discover y x rest s0,
     getManager c false s = (Ok None, s0) ->
     discover (url c) = Ok (y, x :: rest) ->
     exists s1 s2,
       getNextService c discover s = (Ok x, s1) /\
       cleanup c force s1 = (Ok x, s2) /\
       sess_mem (slot c) (session s2) = false /\
       cleanup c force s2 = (Ok DNone, s2)) /\
  (forall discover a s0 m x rest k,
     getManager c false s = (Ok (Some a), s0) ->
     heap s0 !! a = Some m ->
     services m = x :: rest ->
     hash_key (session_key m) = Ok k ->
     k = slot c \/ sess_get (slot c) (session s) = SRef a ->
     exists s1 s2,
       getNextService c discover s = (Ok x, s1) /\
       cleanup c force s1 = (Ok x, s2) /\
       sess_mem (slot c) (session s2) = false /\
       cleanup c force s2 = (Ok DNone, s2)) /\
  (forall discover a s0 m y x rest,
     getManager c false s = (Ok (Some a), s0) ->
     heap s0 !! a = Some m ->
     services m = [] ->
     discover (url c) = Ok (y, x :: rest) ->
     exists s1 s2,
       getNextService c discover s = (Ok x, s1) /\
       cleanup c force s1 = (Ok x, s2) /\
       sess_mem (slot c) (session s2) = false /\
       cleanup c force s2 = (Ok DNone, s2)).
Proof.
  split; [ | split; [ | split; [ | split]]].
  - intros a s1 H. apply getManager_inv in H.
    destruct (loaded_some _ _ _ _ _ H) as [_ (m & Ha & _)].
    destruct (cleanup_some c force s a s1 m H Ha) as (s2 & Hc & Hse & _).
    exists m, s2. repeat split; auto.
    rewrite Hse. apply sess_mem_del_eq.
  - intros s1 H. apply getManager_inv in H.
    split; [now apply cleanup_none | ].
    now destruct (loaded_frame _ _ _ _ _ H).
  - intros discover y x rest s0 H Hd. apply getManager_inv in H.
    destruct (getNextService_discovers c discover y x rest s s0 H Hd)
      as (s1 & a & E & Hv & Ha & _).
    destruct (cleanup_after_hand_out c force s1 a _ x Hv Ha
                (forURL_created c y _) eq_refl) as (s2 & H1 & H2 & H3).
    now exists s1, s2.
  - intros discover a s0 m x rest k H Ha Hs Hk Hslot. apply getManager_inv in H.
    pose proof (getNextService_hands_out c discover a m x rest k s s0
                  H Ha Hs Hk) as E.
    match type of E with _ = (_, ?st) => set (s1 := st) in * end.
    destruct (loaded_some _ _ _ _ _ H) as [_ (m' & Ha' & Hf)].
    assert (m' = m) as -> by congruence.
    rewrite orb_false_r in Hf.
    destruct (cleanup_after_hand_out c force s1 a
                (set__current x (set_services rest m)) x)
      as (s2 & H1 & H2 & H3).
    + destruct Hslot as [-> | Hv];
        [apply sess_get_set_eq | now apply sess_get_set_ref].
    + simpl. apply list_lookup_insert_eq. now apply lookup_lt_Some in Ha.
    + exact Hf.
    + reflexivity.
    + now exists s1, s2.
  - intros discover a s0 m y x rest H Ha Hs Hd. apply getManager_inv in H.
    destruct (getNextService_rediscovers c discover a m y x rest s s0 H Ha Hs Hd)
      as (s1 & a' & E & Hv & Ha' & _).
    destruct (cleanup_after_hand_out c force s1 a' _ x Hv Ha'
                (forURL_created c y _) eq_refl) as (s2 & H1 & H2 & H3).
    now exists s1, s2.
Qed.

(** ** Discovery._from_dict and the plain-dict form *)

(** What [_from_dict] makes of the items of a manager: the four other
    items come back, [_current] comes back wrapped in a tuple. *)
Lemma from_dict_as_dict Q s :
  _from_dict (as_dict Q) s =
    (Ok (length (heap s)),
     mkState (heap s ++ [rebuilt (as_dict Q) (services Q)]) (session s) (trace s))
  /\ starting_url (rebuilt (as_dict Q) (services Q)) = starting_url Q
  /\ yadis_url (rebuilt (as_dict Q) (services Q)) = yadis_url Q
  /\ services (rebuilt (as_dict Q) (services Q)) = services Q
  /\ session_key (rebuilt (as_dict Q) (services Q)) = session_key Q
  /\ _current (rebuilt (as_dict Q) (services Q)) = DTuple [_current Q].
Proof.
  split; [now apply from_dict_run | ]. repeat split.
Qed.

(** C1, at a fresh manager.  Rebuilding the manager from its items gives
    back the starting URL, the Yadis URL, the services and the session
    key, but the current service is the tuple [(None,)] where the manager
    had [None], so that [started] is true of a manager that has handed out
    nothing; the same when the dict has no [_current] item. *)
Theorem from_dict_wraps_current_in_tuple :
  exists a s' Q',
    _from_dict (as_dict Ex.Q) Ex.empty = (Ok a, s') /\
    heap s' !! a = Some Q' /\
    starting_url Q' = starting_url Ex.Q /\
    yadis_url Q' = yadis_url Ex.Q /\
    services Q' = services Ex.Q /\
    session_key Q' = session_key Ex.Q /\
    current Ex.Q = DNone /\ current Q' = DTuple [DNone] /\
    started Ex.Q = false /\ started Q' = true /\
    exists a2 s2 Q2,
      _from_dict Ex.without_current Ex.empty = (Ok a2, s2) /\
      heap s2 !! a2 = Some Q2 /\ current Q2 = DTuple [DNone].
Proof.
  destruct (from_dict_as_dict Ex.Q Ex.empty) as (E & _).
  eexists _, _, _. split; [exact E | ].
  split; [reflexivity | ]. repeat (split; [reflexivity | ]).
  eexists _, _, _.
  split; [exact (from_dict_run Ex.without_current [DSvc 1; DSvc 2] Ex.empty eq_refl) | ].
  split; reflexivity.
Qed.

(** C2, at a plain dict without a [services] item.  [getManager] raises
    [TypeError]: the default for the missing item is [None], and
    [list(None)] raises. *)
Theorem getManager_raises_without_services :
  dict_get Ex.without_services "services" = DNone /\
  _from_dict Ex.without_services Ex.empty = (Raise TypeError, Ex.empty) /\
  getManager Ex.c false (Ex.holding (SData (DDict Ex.without_services))) =
    (Raise TypeError, Ex.holding (SData (DDict Ex.without_services))) /\
  getManager Ex.c true (Ex.holding (SData (DDict []))) =
    (Raise TypeError, Ex.holding (SData (DDict []))).
Proof. repeat split; reflexivity. Qed.

(** ** Discovery.createManager *)

(** C5, at the store left by two calls of [getNextService].  [getManager]
    finds the exhausted manager for this URL, yet [createManager] does not
    raise [KeyError]: it builds a new manager and stores it over the old
    one. *)
Theorem createManager_overwrites_exhausted :
  getManager Ex.c false Ex.after_two = (Ok (Some 0), Ex.after_two) /\
  heap Ex.after_two !! 0 = Some Ex.exhausted /\
  services Ex.exhausted = [] /\
  forURL Ex.exhausted (url Ex.c) = true /\
  sess_get (slot Ex.c) (session Ex.after_two) = SRef 0 /\
  createManager Ex.c [DSvc 3] Ex.resolved Ex.after_two =
    (Ok (Some 1), stored Ex.c Ex.resolved [DSvc 3] Ex.after_two) /\
  sess_get (slot Ex.c)
    (session (stored Ex.c Ex.resolved [DSvc 3] Ex.after_two)) = SRef 1 /\
  heap (stored Ex.c Ex.resolved [DSvc 3] Ex.after_two) !! 1 =
    Some (created Ex.c Ex.resolved [DSvc 3]).
Proof. repeat split; reflexivity. Qed.

(** With a manager for this URL that has pending services in the slot,
    [createManager] raises [KeyError] and leaves the session as it is. *)
Lemma createManager_raises_on_pending c l y s a m :
  sess_get (slot c) (session s) = SRef a ->
  heap s !! a = Some m ->
  forURL m (url c) = true ->
  services m <> [] ->
  createManager c l y s = (Raise KeyError, s).
Proof.
  intros H0 Ha Hf Hs.
  pose proof (loaded_ref c false s a m H0 Ha) as L.
  rewrite Hf in L. simpl in L.
  now apply (createManager_exists c y l s a s m).
Qed.

(** ** Counterexample and witnesses *)

(** C3 as stated fails: from an empty session, with a discovery that
    returns two services, one call of [getNextService] sets the slot
    twice; on the store left by two calls, where the manager in the slot
    is exhausted, the next call deletes the slot and sets it twice. *)
Lemma getNextService_mutates_slot_more_than_once :
  events_of (getNextService Ex.c Ex.discover) Ex.empty =
    [ESet (slot Ex.c); ESet (slot Ex.c); EDiscover (url Ex.c)] /\
  events_of (getNextService Ex.c Ex.discover) Ex.after_two =
    [ESet (slot Ex.c); ESet (slot Ex.c); EDiscover (url Ex.c); EDel (slot Ex.c)] /\
  slot_mutations (slot Ex.c)
    (events_of (getNextService Ex.c Ex.discover) Ex.after_two) = 3 /\
  ~ (discover_calls (events_of (getNextService Ex.c Ex.discover) Ex.empty) <= 1 /\
     slot_mutations (slot Ex.c)
       (events_of (getNextService Ex.c Ex.discover) Ex.empty) <= 1).
Proof.
  split; [reflexivity | ]. split; [reflexivity | ]. split; [reflexivity | ].
  intros [_ H]. vm_compute in H. lia.
Qed.

Lemma next_yields_services_in_order_witness :
  [DSvc 1; DSvc 2] <> [] /\
  exists a s1 s2,
    YadisServiceManager.__init__ DNone DNone (DList [DSvc 1; DSvc 2]) DNone
      Ex.empty = (Ok a, s1) /\
    next_n 2 a s1 = (Ok [DSvc 1; DSvc 2], s2) /\
    __next__ a s2 = (Raise StopIteration, s2).
Proof.
  assert (H : [DSvc 1; DSvc 2] <> []) by discriminate.
  split; [exact H | ].
  destruct (next_yields_services_in_order DNone DNone DNone
              [DSvc 1; DSvc 2] Ex.empty H)
    as (a & s1 & Hi & _ & (s2 & Hn & Hstop & _) & _).
  exists a, s1, s2. auto.
Defined.

Lemma next_on_exhausted_leaves_state_witness :
  heap Ex.after_two !! 0 = Some Ex.exhausted /\
  services Ex.exhausted = [] /\
  __next__ 0 Ex.after_two = (Raise StopIteration, Ex.after_two).
Proof.
  assert (Ha : heap Ex.after_two !! 0 = Some Ex.exhausted) by reflexivity.
  assert (Hs : services Ex.exhausted = []) by reflexivity.
  split; [exact Ha | ]. split; [exact Hs | ].
  exact (proj1 (proj2 (next_on_exhausted_leaves_state 0 Ex.exhausted
                         Ex.after_two Ha Hs))).
Defined.

Lemma getManager_returns_stored_iff_owned_witness :
  sess_get (slot Ex.c_other) (session Ex.after_one) = SRef 0 /\
  heap Ex.after_one !! 0 =
    Some (set__current (DSvc 1) (set_services [DSvc 2] Ex.Q)) /\
  getManager Ex.c_other false Ex.after_one = (Ok None, Ex.after_one) /\
  getManager Ex.c_other true Ex.after_one = (Ok (Some 0), Ex.after_one).
Proof.
  assert (Hv : sess_get (slot Ex.c_other) (session Ex.after_one) = SRef 0)
    by reflexivity.
  assert (Ha : heap Ex.after_one !! 0 =
               Some (set__current (DSvc 1) (set_services [DSvc 2] Ex.Q)))
    by reflexivity.
  split; [exact Hv | ]. split; [exact Ha | ].
  apply (getManager_returns_stored_iff_owned Ex.c_other false Ex.after_one 0 _ Hv Ha);
    discriminate.
Defined.

Lemma getNextService_scenario_A_witness :
  Ex.discover (url Ex.c) = Ok (DStr "https://id.example/x", [DSvc 1; DSvc 2]) /\
  exists s1 s2 s3,
    getNextService Ex.c Ex.discover Ex.empty = (Ok (DSvc 1), s1) /\
    getNextService Ex.c Ex.discover s1 = (Ok (DSvc 2), s2) /\
    getNextService Ex.c Ex.discover s2 = (Ok (DSvc 1), s3) /\
    events_of (getNextService Ex.c Ex.discover) s2 =
      [ESet (slot Ex.c); ESet (slot Ex.c); EDiscover (url Ex.c); EDel (slot Ex.c)].
Proof.
  assert (Hd : Ex.discover (url Ex.c) =
               Ok (DStr "https://id.example/x", [DSvc 1; DSvc 2]))
    by reflexivity.
  split; [exact Hd | ].
  destruct (getNextService_scenario_A Ex.c Ex.discover (DSvc 1) (DSvc 2) [] [] Hd)
    as (s1 & s2 & s3 & a & m2 & H1 & _ & H2 & _ & _ & _ & _ & H3 & H4 & _).
  exists s1, s2, s3. auto.
Defined.

Lemma getNextService_nothing_discovered_witness :
  Ex.discover_nothing (url Ex.c) = Ok (DStr (url Ex.c), []) /\
  getManager Ex.c false Ex.empty = (Ok None, Ex.empty) /\
  (exists s',
     getNextService Ex.c Ex.discover_nothing Ex.empty = (Ok DNone, s') /\
     session s' = session Ex.empty) /\
  getManager Ex.c false Ex.after_two = (Ok (Some 0), Ex.after_two) /\
  heap Ex.after_two !! 0 = Some Ex.exhausted /\
  __len__ Ex.exhausted = 0 /\
  (exists s',
     getNextService Ex.c Ex.discover_nothing Ex.after_two = (Ok DNone, s') /\
     session s' = sess_del (slot Ex.c) (session Ex.after_two)).
Proof.
  assert (Hd : Ex.discover_nothing (url Ex.c) = Ok (DStr (url Ex.c), []))
    by reflexivity.
  assert (G0 : getManager Ex.c false Ex.empty = (Ok None, Ex.empty))
    by reflexivity.
  assert (G2 : getManager Ex.c false Ex.after_two = (Ok (Some 0), Ex.after_two))
    by reflexivity.
  assert (Ha : heap Ex.after_two !! 0 = Some Ex.exhausted) by reflexivity.
  assert (Hl : __len__ Ex.exhausted = 0) by reflexivity.
  split; [exact Hd | ]. split; [exact G0 | ]. split.
  - destruct (proj1 (getNextService_nothing_discovered Ex.c Ex.discover_nothing
                       (DStr (url Ex.c)) Ex.empty Hd) Ex.empty G0)
      as (s' & H1 & H2 & _).
    exists s'. auto.
  - split; [exact G2 | ]. split; [exact Ha | ]. split; [exact Hl | ].
    destruct (proj2 (getNextService_nothing_discovered Ex.c Ex.discover_nothing
                       (DStr (url Ex.c)) Ex.after_two Hd)
                0 Ex.after_two Ex.exhausted G2 Ha Hl)
      as (s' & H1 & H2 & _).
    exists s'. auto.
Defined.

Lemma cleanup_returns_current_and_removes_slot_witness :
  getManager Ex.c false Ex.empty = (Ok None, Ex.empty) /\
  Ex.discover (url Ex.c) = Ok (Ex.resolved, [DSvc 1; DSvc 2]) /\
  (exists s1 s2,
     getNextService Ex.c Ex.discover Ex.empty = (Ok (DSvc 1), s1) /\
     cleanup Ex.c false s1 = (Ok (DSvc 1), s2) /\
     sess_mem (slot Ex.c) (session s2) = false /\
     cleanup Ex.c false s2 = (Ok DNone, s2)) /\
  getManager Ex.c false Ex.after_two = (Ok (Some 0), Ex.after_two) /\
  (exists m s2,
     heap Ex.after_two !! 0 = Some m /\
     cleanup Ex.c false Ex.after_two = (Ok (current m), s2) /\
     session s2 = sess_del (slot Ex.c) (session Ex.after_two)) /\
  getManager Ex.c_other false Ex.after_two = (Ok None, Ex.after_two) /\
  cleanup Ex.c_other false Ex.after_two = (Ok DNone, Ex.after_two) /\
  (exists s1 s2,
     getNextService Ex.c Ex.discover Ex.after_one = (Ok (DSvc 2), s1) /\
     cleanup Ex.c false s1 = (Ok (DSvc 2), s2) /\
     cleanup Ex.c false s2 = (Ok DNone, s2)) /\
  (exists s1 s2,
     getNextService Ex.c Ex.discover Ex.after_two = (Ok (DSvc 1), s1) /\
     cleanup Ex.c false s1 = (Ok (DSvc 1), s2) /\
     cleanup Ex.c false s2 = (Ok DNone, s2)).
Proof.
  assert (G0 : getManager Ex.c false Ex.empty = (Ok None, Ex.empty))
    by reflexivity.
  assert (Hd : Ex.discover (url Ex.c) = Ok (Ex.resolved, [DSvc 1; DSvc 2]))
    by reflexivity.
  assert (G2 : getManager Ex.c false Ex.after_two = (Ok (Some 0), Ex.after_two))
    by reflexivity.
  assert (G3 : getManager Ex.c_other false Ex.after_two = (Ok None, Ex.after_two))
    by reflexivity.
  destruct (cleanup_returns_current_and_removes_slot Ex.c false Ex.empty)
    as (_ & _ & E0 & _).
  destruct (cleanup_returns_current_and_removes_slot Ex.c false Ex.after_one)
    as (_ & _ & _ & E1 & _).
  destruct (cleanup_returns_current_and_removes_slot Ex.c false Ex.after_two)
    as (E2 & _ & _ & _ & E3).
  destruct (cleanup_returns_current_and_removes_slot Ex.c_other false Ex.after_two)
    as (_ & E4 & _).
  split; [exact G0 | ]. split; [exact Hd | ].
  split; [exact (E0 Ex.discover Ex.resolved (DSvc 1) [DSvc 2] Ex.empty G0 Hd) | ].
  split; [exact G2 | ]. split.
  { destruct (E2 0 Ex.after_two G2) as (m & s2 & Hm & Hc & Hs & _).
    exists m, s2. auto. }
  split; [exact G3 | ]. split; [exact (proj1 (E4 Ex.after_two G3)) | ]. split.
  - destruct (E1 Ex.discover 0 Ex.after_one
                (set__current (DSvc 1) (set_services [DSvc 2] Ex.Q))
                (DSvc 2) [] (slot Ex.c))
      as (s1 & s2 & H1 & H2 & _ & H3);
      [reflexivity | reflexivity | reflexivity | reflexivity
      | left; reflexivity | ].
    exists s1, s2. auto.
  - destruct (E3 Ex.discover 0 Ex.after_two Ex.exhausted Ex.resolved
                (DSvc 1) [DSvc 2] G2)
      as (s1 & s2 & H1 & H2 & _ & H3); try reflexivity.
    exists s1, s2. auto.
Defined.


(** * Further properties of the two classes *)

(** ** Helper lemmas *)

Lemma key_eqb_neq a b : a <> b -> key_eqb a b = false.
Proof.
  intros H. destruct (key_eqb a b) eqn:E; [ | reflexivity].
  now apply key_eqb_eq in E.
Qed.

Lemma sess_get_del_ne k0 k s :
  key_eqb k0 k = false -> sess_get k (sess_del k0 s) = sess_get k s.
Proof.
  intros Hne. induction s as [ | [k' v'] s IHs]; simpl; [reflexivity | ].
  destruct (key_eqb k' k0) eqn:E.
  - apply key_eqb_eq in E. subst k'. now rewrite Hne.
  - simpl. now rewrite IHs.
Qed.

Lemma sess_del_set_absent k v s :
  sess_mem k s = false -> sess_del k (sess_set k v s) = s.
Proof.
  induction s as [ | [k' v'] s IHs]; simpl.
  - now rewrite key_eqb_refl.
  - destruct (key_eqb k' k) eqn:E; simpl; [discriminate | ].
    intros H. rewrite E. now rewrite IHs.
Qed.

Lemma append_inj_r (p a b : string) : (p ++ a)%string = (p ++ b)%string -> a = b.
Proof.
  induction p as [ | ch p IHp]; simpl; [auto | ].
  intros [= H]. now apply IHp.
Qed.

Lemma slot_neq c1 c2 :
  session_key_suffix c1 <> session_key_suffix c2 -> slot c1 <> slot c2.
Proof.
  intros H E. apply H. apply (append_inj_r PREFIX).
  unfold slot, getSessionKey in E. congruence.
Qed.

Lemma py_list_raises v e : py_list v = Raise e -> e = TypeError.
Proof. destruct v; simpl; congruence. Qed.

Lemma hash_key_raises : forall v e, hash_key v = Raise e -> e = TypeError.
Proof.
  fix IH 1. intros [ | s | n | l | l | d] e; simpl; try congruence.
  match goal with
  | |- match ?t with _ => _ end = _ -> _ =>
      assert (H : forall e', t = Raise e' -> e' = TypeError);
        [ | destruct t; [congruence | intros [= <-]; now apply H] ]
  end.
  induction l as [ | x l IHl]; intros e'; [congruence | ].
  destruct (hash_key x) as [k | e1] eqn:Hx.
  - match goal with
    | |- match ?t with _ => _ end = _ -> _ =>
        destruct t as [ks | e2]; [congruence | ]
    end.
    intros [= <-]. now apply IHl.
  - intros [= <-]. now apply (IH x).
Qed.

(** A failing [getManager] leaves the store as it is and raises one of
    three exceptions. *)
Lemma getManager_raise_inv c f s e s1 :
  getManager c f s = (Raise e, s1) ->
  s1 = s /\ (e = TypeError \/ e = AttributeError \/ e = BadRef).
Proof.
  intros H.
  destruct (sess_get (slot c) (session s)) as [v | a] eqn:Hv.
  - destruct v as [ | u | n | l | l | d];
      try (unfold getManager in H; unfold_monad_in H; fold (slot c) in H;
           rewrite Hv in H; injection H as <- <-; auto).
    + rewrite (getManager_none c f s Hv) in H. discriminate.
    + destruct (py_list (dict_get d "services")) as [l | e'] eqn:Hl.
      * rewrite (getManager_dict c f s d l Hv Hl) in H. discriminate.
      * rewrite (getManager_dict_fail c f s d e' Hv Hl) in H.
        injection H as <- <-. apply py_list_raises in Hl. auto.
  - destruct (heap s !! a) as [m | ] eqn:Ha.
    + rewrite (getManager_ref c f s a m Hv Ha) in H. discriminate.
    + unfold getManager in H. unfold_monad_in H. fold (slot c) in H.
      rewrite Hv, Ha in H. injection H as <- <-. auto.
Qed.

Lemma bind_raise {A B} (m : M A) (f : A -> M B) s e s' :
  m s = (Raise e, s') -> bind m f s = (Raise e, s').
Proof. intros H. unfold bind. now rewrite H. Qed.

(** [getNextService] by cases on what [getManager] finds and on what the
    discovery function returns, for the cases in which no service is
    handed out. *)

Ltac gns_nothing_found L s0 :=
  unfold getNextService;
  rewrite (bind_ok _ _ _ _ _ (loaded_run _ _ _ _ _ L));
  unfold bind at 1; unfold ret at 1;
  rewrite (bind_ok _ _ _ _ _ (truth_none s0));
  cbn [negb]; cbv beta iota;
  unfold bind at 1; unfold bind at 1.

Ltac gns_exhausted L L' Ha Hb :=
  unfold getNextService;
  rewrite (bind_ok _ _ _ _ _ (loaded_run _ _ _ _ _ L));
  unfold bind at 1; rewrite (bind_ok _ _ _ _ _ (deref_run _ _ _ Ha));
  rewrite Hb; cbn [negb]; cbv beta iota;
  rewrite (destroyManager_some _ _ _ _ _ L').

Lemma call_fault discover u e s :
  discover u = Raise e ->
  call discover u s =
    (Raise e, mkState (heap s) (session s) (EDiscover u :: trace s)).
Proof. intros H. unfold call. unfold_monad. now rewrite H. Qed.

Lemma getNextService_discover_fault c discover e s s0 :
  loaded c false s None s0 ->
  discover (url c) = Raise e ->
  getNextService c discover s =
    (Raise e, mkState (heap s0) (session s) (EDiscover (url c) :: trace s)).
Proof.
  intros L Hd. destruct (loaded_frame _ _ _ _ _ L) as [Hse Htr].
  gns_nothing_found L s0.
  rewrite (call_fault discover (url c) e s0 Hd).
  now rewrite Hse, Htr.
Qed.

Lemma getNextService_nothing c discover y s s0 :
  loaded c false s None s0 ->
  discover (url c) = Ok (y, []) ->
  exists s',
    getNextService c discover s = (Ok DNone, s') /\
    session s' = session s /\
    trace s' = EDiscover (url c) :: trace s.
Proof.
  intros L Hd. destruct (loaded_frame _ _ _ _ _ L) as [Hse Htr].
  destruct (loaded_again _ _ _ _ _ L) as (r' & s2 & L' & Hnone & _).
  rewrite (Hnone eq_refl) in L'.
  destruct (loaded_frame _ _ _ _ _ L') as [Hse' Htr'].
  pose proof (loaded_add_event _ _ _ _ _ (EDiscover (url c)) L') as L2.
  gns_nothing_found L s0.
  rewrite (call_run discover (url c) (y, []) s0 Hd). cbv beta iota.
  rewrite (createManager_empty c y _ _ L2).
  eexists. split; [reflexivity | ]. simpl. split; congruence.
Qed.

Lemma getNextService_exhausted_fault c discover a m e s s0 :
  loaded c false s (Some a) s0 ->
  heap s0 !! a = Some m ->
  services m = [] ->
  discover (url c) = Raise e ->
  exists s',
    getNextService c discover s = (Raise e, s') /\
    session s' = sess_del (slot c) (session s) /\
    trace s' = EDiscover (url c) :: EDel (slot c) :: trace s.
Proof.
  intros L Ha Hs Hd. destruct (loaded_frame _ _ _ _ _ L) as [Hse Htr].
  destruct (loaded_again _ _ _ _ _ L) as (r' & s2 & L' & _ & Hsome).
  destruct (Hsome a eq_refl) as [a' ->].
  assert (Hb : __bool__ m = false) by (unfold __bool__, __len__; now rewrite Hs).
  gns_exhausted L L' Ha Hb.
  set (s3 := mkState (heap s2) (sess_del (slot c) (session s0))
               (EDel (slot c) :: trace s0)).
  assert (Ha3 : heap s3 !! a = Some m) by (simpl; eapply loaded_keeps; eauto).
  rewrite (bind_ok _ _ _ _ _ (truth_some a m s3 Ha3)).
  rewrite Hb. cbn [negb]. cbv beta iota.
  unfold bind at 1. unfold bind at 1.
  rewrite (call_fault discover (url c) e s3 Hd).
  eexists. split; [reflexivity | ]. simpl. now rewrite Hse, Htr.
Qed.

Lemma getNextService_exhausted_nothing c discover a m y s s0 :
  loaded c false s (Some a) s0 ->
  heap s0 !! a = Some m ->
  services m = [] ->
  discover (url c) = Ok (y, []) ->
  exists s',
    getNextService c discover s = (Ok DNone, s') /\
    session s' = sess_del (slot c) (session s) /\
    trace s' = EDiscover (url c) :: EDel (slot c) :: trace s.
Proof.
  intros L Ha Hs Hd. destruct (loaded_frame _ _ _ _ _ L) as [Hse Htr].
  destruct (loaded_again _ _ _ _ _ L) as (r' & s2 & L' & _ & Hsome).
  destruct (Hsome a eq_refl) as [a' ->].
  assert (Hb : __bool__ m = false) by (unfold __bool__, __len__; now rewrite Hs).
  gns_exhausted L L' Ha Hb.
  set (s3 := mkState (heap s2) (sess_del (slot c) (session s0))
               (EDel (slot c) :: trace s0)).
  assert (Ha3 : heap s3 !! a = Some m) by (simpl; eapply loaded_keeps; eauto).
  rewrite (bind_ok _ _ _ _ _ (truth_some a m s3 Ha3)).
  rewrite Hb. cbn [negb]. cbv beta iota.
  unfold bind at 1. unfold bind at 1.
  rewrite (call_run discover (url c) (y, []) s3 Hd). cbv beta iota.
  assert (H1 : sess_get (slot c) (sess_del (slot c) (session s0)) = SData DNone)
    by apply sess_get_del_eq.
  rewrite (createManager_empty c y _ _
             (loaded_none c false
                (mkState (heap s3) (session s3) (EDiscover (url c) :: trace s3))
                H1)).
  eexists. split; [reflexivity | ]. simpl. now rewrite Hse, Htr.
Qed.

Lemma getNextService_store_fault c discover a m x rest e s s0 :
  loaded c false s (Some a) s0 ->
  heap s0 !! a = Some m ->
  services m = x :: rest ->
  hash_key (session_key m) = Raise e ->
  getNextService c discover s =
    (Raise e,
     mkState (<[a := set__current x (set_services rest m)]> (heap s0))
       (session s) (trace s)).
Proof.
  intros L Ha Hs Hk. destruct (loaded_frame _ _ _ _ _ L) as [Hse Htr].
  unfold getNextService.
  rewrite (bind_ok _ _ _ _ _ (loaded_run _ _ _ _ _ L)).
  unfold bind at 1. rewrite (bind_ok _ _ _ _ _ (deref_run a m s0 Ha)).
  assert (Hb : __bool__ m = true) by (unfold __bool__, __len__; now rewrite Hs).
  rewrite Hb. cbn [negb]. cbv beta iota. unfold ret at 1.
  rewrite (bind_ok _ _ _ _ _ (truth_some a m s0 Ha)).
  rewrite Hb. cbn [negb]. cbv beta iota.
  unfold bind at 1. unfold ret at 1.
  rewrite (bind_ok _ _ _ _ _ (deref_run a m s0 Ha)). rewrite Hb.
  rewrite (bind_ok _ _ _ _ _ (next_some a m x rest s0 Ha Hs)).
  set (m1 := set__current x (set_services rest m)).
  set (s1 := mkState (<[a := m1]> (heap s0)) (session s0) (trace s0)).
  assert (Ha1 : heap s1 !! a = Some m1).
  { simpl. apply list_lookup_insert_eq. now apply lookup_lt_Some in Ha. }
  assert (Hst : store a s1 = (Raise e, s1)).
  { unfold store. rewrite (bind_ok _ _ _ _ _ (deref_run a m1 s1 Ha1)).
    simpl session_key. now rewrite Hk. }
  rewrite (bind_raise _ _ _ _ _ Hst).
  unfold s1. now rewrite Hse, Htr.
Qed.

(** ** Discovery.getNextService: how often it discovers and writes *)

Lemma slot_sets_le k l : slot_sets k l <= sets l.
Proof.
  unfold slot_sets, sets.
  induction l as [ | [u | k' | k'] l IHl]; simpl; auto.
  destruct (key_eqb k' k); simpl; lia.
Qed.

Lemma slot_deletes_le k l : slot_deletes k l <= deletes l.
Proof.
  unfold slot_deletes, deletes.
  induction l as [ | [u | k' | k'] l IHl]; simpl; auto.
  destruct (key_eqb k' k); simpl; lia.
Qed.

(** [createManager] adds nothing to the trace or one set of the slot. *)
Lemma createManager_events c l y s :
  events_of (createManager c l y) s = [] \/
  events_of (createManager c l y) s = [ESet (slot c)].
Proof.
  destruct (getManager c false s) as [[r | e] s0] eqn:E.
  - apply getManager_inv in E.
    destruct (loaded_frame _ _ _ _ _ E) as [Hse Htr].
    destruct r as [a | ].
    + destruct (loaded_some _ _ _ _ _ E) as [_ (m & Ha & _)].
      destruct (services m) as [ | x0 rest0] eqn:Hs.
      * destruct l as [ | x l].
        -- left. apply events_of_adds. unfold createManager.
           rewrite (bind_ok _ _ _ _ _ (loaded_run _ _ _ _ _ E)).
           rewrite (bind_ok _ _ _ _ _ (truth_some a m s0 Ha)).
           unfold __bool__, __len__. rewrite Hs. simpl. exact Htr.
        -- right. apply events_of_adds.
           rewrite (createManager_over_exhausted c y x l s a s0 m E Ha Hs).
           simpl. now rewrite Htr.
      * left. apply events_of_adds.
        rewrite (createManager_exists c y l s a s0 m E Ha); [exact Htr | ].
        rewrite Hs. discriminate.
    + destruct l as [ | x l].
      * left. apply events_of_adds.
        rewrite (createManager_empty c y s s0 E). exact Htr.
      * right. apply events_of_adds.
        rewrite (createManager_fresh c y x l s s0 E). simpl. now rewrite Htr.
  - left. apply events_of_adds. unfold createManager.
    rewrite (bind_raise _ _ _ _ _ E).
    now apply getManager_raise_inv in E as [-> _].
Qed.

(** [destroyManager] adds nothing to the trace or one delete of the
    slot. *)
Lemma destroyManager_events c f s :
  events_of (destroyManager c f) s = [] \/
  events_of (destroyManager c f) s = [EDel (slot c)].
Proof.
  destruct (getManager c f s) as [[[a | ] | e] s0] eqn:E.
  - right. apply getManager_inv in E. apply events_of_adds.
    now rewrite (destroyManager_some c f s a s0 E).
  - left. apply getManager_inv in E. apply events_of_adds.
    rewrite (destroyManager_none c f s s0 E).
    now destruct (loaded_frame _ _ _ _ _ E).
  - left. apply events_of_adds. unfold destroyManager.
    rewrite (bind_raise _ _ _ _ _ E).
    now apply getManager_raise_inv in E as [-> _].
Qed.

(** The events of one call of [getNextService], newest first. *)
Lemma getNextService_event_shapes c discover s :
  events_of (getNextService c discover) s = [] \/
  (exists k, events_of (getNextService c discover) s = [ESet k]) \/
  events_of (getNextService c discover) s = [EDiscover (url c)] \/
  events_of (getNextService c discover) s =
    [ESet (slot c); ESet (slot c); EDiscover (url c)] \/
  events_of (getNextService c discover) s =
    [EDiscover (url c); EDel (slot c)] \/
  events_of (getNextService c discover) s =
    [ESet (slot c); ESet (slot c); EDiscover (url c); EDel (slot c)].
Proof.
  destruct (getManager c false s) as [[r | e0] s0] eqn:E.
  - apply getManager_inv in E. destruct r as [a | ].
    + destruct (loaded_some _ _ _ _ _ E) as [_ (m & Ha & _)].
      destruct (services m) as [ | x rest] eqn:Hs.
      * destruct (discover (url c)) as [[y [ | x rest]] | e1] eqn:Hd.
        -- destruct (getNextService_exhausted_nothing c discover a m y s s0
                       E Ha Hs Hd) as (s1 & E1 & _ & Ht).
           do 4 right. left. apply events_of_adds. now rewrite E1.
        -- destruct (getNextService_rediscovers c discover a m y x rest s s0
                       E Ha Hs Hd) as (s1 & a' & E1 & _ & _ & Ht).
           do 5 right. apply events_of_adds. now rewrite E1.
        -- destruct (getNextService_exhausted_fault c discover a m e1 s s0
                       E Ha Hs Hd) as (s1 & E1 & _ & Ht).
           do 4 right. left. apply events_of_adds. now rewrite E1.
      * destruct (hash_key (session_key m)) as [k | e2] eqn:Hk.
        -- right. left. exists k. apply events_of_adds.
           now rewrite (getNextService_hands_out c discover a m x rest k s s0
                          E Ha Hs Hk).
        -- left. apply events_of_adds.
           now rewrite (getNextService_store_fault c discover a m x rest e2 s s0
                          E Ha Hs Hk).
    + destruct (discover (url c)) as [[y [ | x rest]] | e1] eqn:Hd.
      * destruct (getNextService_nothing c discover y s s0 E Hd)
          as (s1 & E1 & _ & Ht).
        do 2 right. left. apply events_of_adds. now rewrite E1.
      * destruct (getNextService_discovers c discover y x rest s s0 E Hd)
          as (s1 & a' & E1 & _ & _ & Ht).
        do 3 right. left. apply events_of_adds. now rewrite E1.
      * do 2 right. left. apply events_of_adds.
        now rewrite (getNextService_discover_fault c discover e1 s s0 E Hd).
  - left. apply events_of_adds. unfold getNextService.
    rewrite (bind_raise _ _ _ _ _ E).
    now apply getManager_raise_inv in E as [-> _].
Qed.

(** C3, as the code has it.  The events of one call of [getNextService]
    (newest first) are one of: none; one set (a hand-out from the stored
    manager); the discovery call alone; the discovery call and then two
    sets of the slot; the delete of the slot and then the discovery call;
    that delete, the discovery call and then two sets of the slot.  So a
    call calls the discovery function at most once, deletes at most once
    and sets at most twice, on any key and so on [session[key]], at most
    three sets and deletes in all; a delete comes before any discovery
    and two sets come only after one.  Of these, [destroyManager] does at
    most the one delete and [createManager] at most one set, each on the
    slot. *)
Theorem getNextService_effects_bounded c discover s :
  (events_of (getNextService c discover) s = [] \/
   (exists k, events_of (getNextService c discover) s = [ESet k]) \/
   events_of (getNextService c discover) s = [EDiscover (url c)] \/
   events_of (getNextService c discover) s =
     [ESet (slot c); ESet (slot c); EDiscover (url c)] \/
   events_of (getNextService c discover) s =
     [EDiscover (url c); EDel (slot c)] \/
   events_of (getNextService c discover) s =
     [ESet (slot c); ESet (slot c); EDiscover (url c); EDel (slot c)]) /\
  discover_calls (events_of (getNextService c discover) s) <= 1 /\
  deletes (events_of (getNextService c discover) s) <= 1 /\
  sets (events_of (getNextService c discover) s) <= 2 /\
  slot_deletes (slot c) (events_of (getNextService c discover) s) <= 1 /\
  slot_sets (slot c) (events_of (getNextService c discover) s) <= 2 /\
  mutations (events_of (getNextService c discover) s) <= 3 /\
  slot_mutations (slot c) (events_of (getNextService c discover) s) <= 3 /\
  (forall f t,
     events_of (destroyManager c f) t = [] \/
     events_of (destroyManager c f) t = [EDel (slot c)]) /\
  (forall l y t,
     events_of (createManager c l y) t = [] \/
     events_of (createManager c l y) t = [ESet (slot c)]).
Proof.
  pose proof (getNextService_event_shapes c discover s) as Hshape.
  pose proof (slot_sets_le (slot c) (events_of (getNextService c discover) s)).
  pose proof (slot_deletes_le (slot c) (events_of (getNextService c discover) s)).
  pose proof (slot_mutations_le (slot c) (events_of (getNextService c discover) s)).
  assert (Hcount :
            discover_calls (events_of (getNextService c discover) s) <= 1 /\
            deletes (events_of (getNextService c discover) s) <= 1 /\
            sets (events_of (getNextService c discover) s) <= 2 /\
            mutations (events_of (getNextService c discover) s) <= 3).
  { destruct Hshape as [-> | [[k ->] | [-> | [-> | [-> | ->]]]]];
      unfold discover_calls, deletes, sets, mutations; simpl; lia. }
  destruct Hcount as (Hd & Hdel & Hset & Hmut).
  split; [exact Hshape | ].
  repeat (split; [lia | ]).
  split; [intros f t; apply destroyManager_events | ].
  intros l y t. apply createManager_events.
Qed.

(** ** The trace accounts for the session *)

Lemma slot_mutations_app k l1 l2 :
  slot_mutations k (l1 ++ l2) = slot_mutations k l1 + slot_mutations k l2.
Proof. unfold slot_mutations. now rewrite List.filter_app, length_app. Qed.

Lemma tracks_quiet {A} (m : M A) :
  (forall s, trace (snd (m s)) = trace s /\ session (snd (m s)) = session s) ->
  tracks m.
Proof.
  intros H s. exists []. destruct (H s) as [Ht Hs].
  rewrite Ht, Hs. auto.
Qed.

Lemma tracks_bind {A B} (m : M A) (f : A -> M B) :
  tracks m -> (forall a, tracks (f a)) -> tracks (bind m f).
Proof.
  intros Hm Hf s. unfold bind.
  destruct (Hm s) as (l1 & Hl1 & Hk1).
  destruct (m s) as [[a | e] s1]; simpl in Hl1, Hk1.
  - destruct (Hf a s1) as (l2 & Hl2 & Hk2).
    exists (l2 ++ l1). rewrite Hl2, Hl1, <- app_assoc. split; [reflexivity | ].
    intros k Hk. rewrite slot_mutations_app in Hk.
    rewrite Hk2 by lia. apply Hk1. lia.
  - exists l1. simpl. auto.
Qed.

Lemma tracks_ret {A} (a : A) : tracks (ret a).
Proof. now apply tracks_quiet. Qed.

Lemma tracks_raise {A} e : tracks (@raise A e).
Proof. now apply tracks_quiet. Qed.

Lemma tracks_lift {A} (r : result A) : tracks (lift r).
Proof. destruct r; [apply tracks_ret | apply tracks_raise]. Qed.

Lemma tracks_deref a : tracks (deref a).
Proof. apply tracks_quiet. intros s. unfold deref. now destruct (heap s !! a). Qed.

Lemma tracks_assign a m : tracks (assign a m).
Proof. now apply tracks_quiet. Qed.

Lemma tracks_alloc m : tracks (alloc m).
Proof. now apply tracks_quiet. Qed.

Lemma tracks_session_get k : tracks (session_get k).
Proof. now apply tracks_quiet. Qed.

Lemma tracks_emit_discover u : tracks (emit (EDiscover u)).
Proof. intros s. exists [EDiscover u]. simpl. auto. Qed.

Lemma tracks_session_set k0 v : tracks (session_set k0 v).
Proof.
  intros s. exists [ESet k0]. simpl. split; [reflexivity | ].
  intros k Hk. unfold slot_mutations in Hk. simpl in Hk.
  destruct (key_eqb k0 k) eqn:E; [discriminate | ].
  now apply sess_get_set_ne.
Qed.

Lemma tracks_session_del k0 : tracks (session_del k0).
Proof.
  intros s. unfold session_del. destruct (sess_mem k0 (session s)).
  - exists [EDel k0]. simpl. split; [reflexivity | ].
    intros k Hk. unfold slot_mutations in Hk. simpl in Hk.
    destruct (key_eqb k0 k) eqn:E; [discriminate | ].
    now apply sess_get_del_ne.
  - exists []. simpl. auto.
Qed.

Create HintDb tracks.
#[local] Hint Resolve tracks_ret tracks_raise tracks_lift tracks_deref
  tracks_assign tracks_alloc tracks_session_get tracks_session_set
  tracks_session_del tracks_emit_discover : tracks.

Lemma tracks_init su yu sv sk : tracks (YadisServiceManager.__init__ su yu sv sk).
Proof.
  unfold YadisServiceManager.__init__. apply tracks_bind; auto with tracks.
Qed.

Lemma tracks_next a : tracks (__next__ a).
Proof.
  unfold __next__. apply tracks_bind; auto with tracks.
  intros m. destruct (next_obj m) as [r m'].
  apply tracks_bind; auto with tracks.
Qed.

Lemma tracks_store a : tracks (store a).
Proof.
  unfold store. apply tracks_bind; auto with tracks.
  intros m. apply tracks_bind; auto with tracks.
Qed.

Lemma tracks_from_dict d : tracks (_from_dict d).
Proof.
  unfold _from_dict. apply tracks_bind; [apply tracks_init | ].
  intros a. apply tracks_bind; auto with tracks.
  intros m. apply tracks_bind; auto with tracks.
Qed.

Lemma tracks_getManager c f : tracks (getManager c f).
Proof.
  unfold getManager. apply tracks_bind; auto with tracks.
  intros v. apply tracks_bind.
  - destruct v as [[ | | | | | d] | a]; auto with tracks.
    apply tracks_bind; [apply tracks_from_dict | auto with tracks].
  - intros [[ | | | | | d] | a]; auto with tracks.
    apply tracks_bind; auto with tracks.
    intros m. destruct (forURL m (url c) || f); auto with tracks.
Qed.

Lemma tracks_truth o : tracks (truth o).
Proof.
  destruct o as [a | ]; simpl; auto with tracks.
  apply tracks_bind; auto with tracks.
Qed.

Lemma tracks_destroyManager c f : tracks (destroyManager c f).
Proof.
  unfold destroyManager. apply tracks_bind; [apply tracks_getManager | ].
  intros [a | ]; auto with tracks.
Qed.

Lemma tracks_createManager c l y : tracks (createManager c l y).
Proof.
  unfold createManager. apply tracks_bind; [apply tracks_getManager | ].
  intros o. apply tracks_bind; [apply tracks_truth | ].
  intros [ | ]; auto with tracks.
  destruct l as [ | x l]; auto with tracks.
  apply tracks_bind; [apply tracks_init | ].
  intros a. apply tracks_bind; [apply tracks_store | auto with tracks].
Qed.

Lemma tracks_call discover u : tracks (call discover u).
Proof. unfold call. apply tracks_bind; auto with tracks. Qed.

Lemma tracks_getNextService c discover : tracks (getNextService c discover).
Proof.
  unfold getNextService. apply tracks_bind; [apply tracks_getManager | ].
  intros o. apply tracks_bind.
  { destruct o as [a | ]; auto with tracks.
    apply tracks_bind; auto with tracks.
    intros m. destruct (negb (__bool__ m)); auto with tracks.
    apply tracks_destroyManager. }
  intros _. apply tracks_bind; [apply tracks_truth | ].
  intros b. apply tracks_bind.
  { destruct (negb b); auto with tracks.
    apply tracks_bind; [apply tracks_call | ].
    intros [y l]. apply tracks_createManager. }
  intros [a | ]; auto with tracks.
  apply tracks_bind; auto with tracks.
  intros m. destruct (__bool__ m); auto with tracks.
  apply tracks_bind; [apply tracks_next | ].
  intros x. apply tracks_bind; [apply tracks_store | auto with tracks].
Qed.

Lemma tracks_cleanup c f : tracks (cleanup c f).
Proof.
  unfold cleanup. apply tracks_bind; [apply tracks_getManager | ].
  intros [a | ]; auto with tracks.
  apply tracks_bind; auto with tracks.
  intros m. apply tracks_bind; [apply tracks_destroyManager | auto with tracks].
Qed.

Lemma only_on_no_mutation k0 k l :
  k <> k0 -> forallb (only_on k0) l = true -> slot_mutations k l = 0.
Proof.
  intros Hne. unfold slot_mutations.
  induction l as [ | e l IHl]; simpl; [reflexivity | ].
  intros H. apply andb_true_iff in H as [He Hl].
  assert (is_mutation_of k e = false).
  { destruct e as [u | k' | k']; simpl in *; auto;
      apply key_eqb_eq in He; subst k';
      apply key_eqb_neq; congruence. }
  rewrite H. now apply IHl.
Qed.

Lemma tracks_frame {A} (m : M A) s k0 k l :
  tracks m ->
  trace (snd (m s)) = l ++ trace s ->
  forallb (only_on k0) l = true ->
  k <> k0 ->
  sess_get k (session (snd (m s))) = sess_get k (session s).
Proof.
  intros Ht Hl Hon Hne.
  destruct (Ht s) as (l' & Hl' & Hk).
  assert (l' = l) as ->.
  { rewrite Hl in Hl'. now apply app_inv_tail in Hl'. }
  apply Hk. now apply (only_on_no_mutation k0).
Qed.

Lemma sess_get_absent k s : sess_mem k s = false -> sess_get k s = SData DNone.
Proof.
  induction s as [ | [k' v'] s IHs]; simpl; [reflexivity | ].
  destruct (key_eqb k' k); simpl; [discriminate | auto].
Qed.

(** ** Discovery.getSessionKey *)


(** ** Discovery.getManager reads only *)

(** X2. Whatever the slot holds and whether [getManager] returns or
    raises, it leaves the session and the trace as they are and changes no
    object that exists: rebuilding a manager from a plain dict does not
    write it back. *)
Theorem getManager_reads_only c force s :
  session (snd (getManager c force s)) = session s /\
  trace (snd (getManager c force s)) = trace s /\
  (forall a m, heap s !! a = Some m ->
     heap (snd (getManager c force s)) !! a = Some m).
Proof.
  destruct (getManager c force s) as [[r | e] s1] eqn:E; simpl.
  - apply getManager_inv in E.
    destruct (loaded_frame _ _ _ _ _ E) as [Hse Htr].
    repeat split; auto. intros a m. now apply loaded_keeps with (1 := E).
  - apply getManager_raise_inv in E as [-> _]. auto.
Qed.

(** ** Discovery.destroyManager *)

(** X3. With a manager in the slot, [destroyManager(force)] does nothing
    when the manager is for another URL and [force] is false; otherwise it
    removes the slot, leaves every other key of the session and every
    object as they are, and a following [getManager] finds [None] even with
    [force].  With nothing in the slot it does nothing. *)
Theorem destroyManager_removes_only_owned c force s :
  (forall a m,
     sess_get (slot c) (session s) = SRef a ->
     heap s !! a = Some m ->
     (forURL m (url c) || force = false ->
        destroyManager c force s = (Ok tt, s)) /\
     (forURL m (url c) || force = true ->
        exists s',
          destroyManager c force s = (Ok tt, s') /\
          sess_mem (slot c) (session s') = false /\
          (forall k, k <> slot c ->
             sess_get k (session s') = sess_get k (session s)) /\
          heap s' = heap s /\
          getManager c true s' = (Ok None, s'))) /\
  (sess_get (slot c) (session s) = SData DNone ->
     destroyManager c force s = (Ok tt, s)).
Proof.
  split.
  - intros a m Hv Ha.
    pose proof (loaded_ref c force s a m Hv Ha) as L. split; intros Hf.
    + rewrite Hf in L. now apply destroyManager_none.
    + rewrite Hf in L.
      rewrite (destroyManager_some c force s a s L).
      eexists. split; [reflexivity | ]. simpl.
      split; [apply sess_mem_del_eq | ].
      split; [intros k Hk; apply sess_get_del_ne, key_eqb_neq; congruence | ].
      split; [reflexivity | ].
      apply getManager_none. simpl. apply sess_get_del_eq.
  - intros Hv. apply destroyManager_none. now constructor.
Qed.

(** ** Discovery.cleanup touches one slot *)

(** X4. Whatever the store and whether it returns or raises, [cleanup]
    never calls anything but one delete of its own slot: the trace gains
    nothing or that delete, and every other key of the session keeps its
    value. *)
Theorem cleanup_touches_only_its_slot c force s :
  (trace (snd (cleanup c force s)) = trace s \/
   trace (snd (cleanup c force s)) = EDel (slot c) :: trace s) /\
  (forall k, k <> slot c ->
     sess_get k (session (snd (cleanup c force s))) = sess_get k (session s)).
Proof.
  assert (H : trace (snd (cleanup c force s)) = trace s \/
              trace (snd (cleanup c force s)) = EDel (slot c) :: trace s).
  { destruct (getManager c force s) as [[[a | ] | e] s1] eqn:E.
    - apply getManager_inv in E.
      destruct (loaded_some _ _ _ _ _ E) as [_ (m & Ha & _)].
      destruct (cleanup_some c force s a s1 m E Ha) as (s2 & Hc & _ & Ht).
      rewrite Hc. now right.
    - apply getManager_inv in E.
      rewrite (cleanup_none c force s s1 E).
      left. now destruct (loaded_frame _ _ _ _ _ E).
    - unfold cleanup. rewrite (bind_raise _ _ _ _ _ E).
      apply getManager_raise_inv in E as [-> _]. now left. }
  split; [exact H | ].
  intros k Hk. destruct H as [H | H].
  - apply (tracks_frame (cleanup c force) s (slot c) k []);
      auto using tracks_cleanup.
  - apply (tracks_frame (cleanup c force) s (slot c) k [EDel (slot c)]);
      auto using tracks_cleanup.
    cbn [forallb only_on]. now rewrite key_eqb_refl.
Qed.

(** ** Discovery.createManager *)

(** X5. When [getManager] finds nothing for this URL, [createManager] with
    at least one service stores a manager that [getManager] then returns:
    its starting URL is the URL of the [Discovery], its Yadis URL and its
    services are the arguments, no service is current and it is not
    started; the objects that existed and the other keys of the session
    are as before. *)
Theorem createManager_then_getManager c y x l s s0 :
  getManager c false s = (Ok None, s0) ->
  exists a s1 m,
    createManager c (x :: l) y s = (Ok (Some a), s1) /\
    getManager c false s1 = (Ok (Some a), s1) /\
    heap s1 !! a = Some m /\
    starting_url m = DStr (url c) /\ yadis_url m = y /\
    services m = x :: l /\ __len__ m = S (length l) /\
    current m = DNone /\ started m = false /\
    (forall a' m', heap s !! a' = Some m' -> heap s1 !! a' = Some m') /\
    (forall k, k <> slot c ->
       sess_get k (session s1) = sess_get k (session s)).
Proof.
  intros H. apply getManager_inv in H.
  destruct (loaded_frame _ _ _ _ _ H) as [Hse Htr].
  pose proof (createManager_fresh c y x l s s0 H) as E.
  exists (length (heap s0)), (stored c y (x :: l) s0), (created c y (x :: l)).
  assert (Ha : heap (stored c y (x :: l) s0) !! length (heap s0) =
               Some (created c y (x :: l))) by apply heap_lookup_alloc.
  assert (Hv : sess_get (slot c) (session (stored c y (x :: l) s0)) =
               SRef (length (heap s0))) by apply sess_get_set_eq.
  split; [exact E | ]. split.
  { rewrite (getManager_ref c false _ _ _ Hv Ha).
    now rewrite forURL_created. }
  split; [exact Ha | ]. repeat (split; [reflexivity | ]). split.
  - intros a' m' Ha'. simpl. apply lookup_app_l_Some.
    now apply loaded_keeps with (1 := H).
  - intros k Hk. simpl. rewrite Hse.
    apply sess_get_set_ne, key_eqb_neq. congruence.
Qed.


(** X7. [createManager] with no services returns [None] and neither
    stores nor deletes anything, when [getManager] finds nothing and also
    when it finds an exhausted manager, which stays in the slot. *)
Theorem createManager_without_services c y s :
  (forall s0,
     getManager c false s = (Ok None, s0) ->
     createManager c [] y s = (Ok None, s0) /\
     session s0 = session s /\ trace s0 = trace s) /\
  (forall a s0 m,
     getManager c false s = (Ok (Some a), s0) ->
     heap s0 !! a = Some m ->
     services m = [] ->
     createManager c [] y s = (Ok None, s0) /\
     session s0 = session s /\ trace s0 = trace s).
Proof.
  split.
  - intros s0 H. apply getManager_inv in H.
    split; [now apply createManager_empty | now apply loaded_frame with (1 := H)].
  - intros a s0 m H Ha Hs. apply getManager_inv in H.
    split; [ | now apply loaded_frame with (1 := H)].
    unfold createManager.
    rewrite (bind_ok _ _ _ _ _ (loaded_run _ _ _ _ _ H)).
    rewrite (bind_ok _ _ _ _ _ (truth_some a m s0 Ha)).
    unfold __bool__, __len__. now rewrite Hs.
Qed.

(** X8. On a session without the slot, [createManager] followed by
    [destroyManager] gives back the session as it was. *)
Theorem createManager_destroyManager_restores c force y x l s :
  sess_mem (slot c) (session s) = false ->
  exists a s1 s2,
    createManager c (x :: l) y s = (Ok (Some a), s1) /\
    destroyManager c force s1 = (Ok tt, s2) /\
    session s2 = session s.
Proof.
  intros Hm.
  assert (L0 : loaded c false s None s)
    by (constructor; now apply sess_get_absent).
  pose proof (createManager_fresh c y x l s s L0) as E.
  assert (Ha : heap (stored c y (x :: l) s) !! length (heap s) =
               Some (created c y (x :: l))) by apply heap_lookup_alloc.
  assert (Hv : sess_get (slot c) (session (stored c y (x :: l) s)) =
               SRef (length (heap s))) by apply sess_get_set_eq.
  pose proof (loaded_ref c force _ _ _ Hv Ha) as L.
  rewrite forURL_created in L. simpl in L.
  eexists _, _, _. split; [exact E | ].
  split; [apply (destroyManager_some c force _ _ _ L) | ].
  simpl. now apply sess_del_set_absent.
Qed.

(** ** Discovery.getNextService: faults and frame *)

Lemma getManager_raise_cases c f s e s1 :
  getManager c f s = (Raise e, s1) ->
  e = TypeError \/ e = AttributeError \/
  (e = BadRef /\ exists a, sess_get (slot c) (session s) = SRef a /\
                           heap s !! a = None).
Proof.
  intros H.
  destruct (sess_get (slot c) (session s)) as [v | a] eqn:Hv.
  - destruct (getManager_raise_inv c f s e s1 H) as [_ [-> | [-> | ->]]]; auto.
    exfalso.
    destruct v as [ | u | n | l | l | d];
      try (unfold getManager in H; unfold_monad_in H; fold (slot c) in H;
           rewrite Hv in H; discriminate).
    destruct (py_list (dict_get d "services")) as [l | e'] eqn:Hl.
    + rewrite (getManager_dict c f s d l Hv Hl) in H. discriminate.
    + rewrite (getManager_dict_fail c f s d e' Hv Hl) in H.
      apply py_list_raises in Hl. congruence.
  - destruct (heap s !! a) as [m | ] eqn:Ha.
    + rewrite (getManager_ref c f s a m Hv Ha) in H. discriminate.
    + destruct (getManager_raise_inv c f s e s1 H) as [_ [-> | [-> | ->]]]; auto.
      right. right. split; [reflexivity | ]. now exists a.
Qed.

Lemma getNextService_discovers_in_place c discover y x rest s :
  loaded c false s None s ->
  discover (url c) = Ok (y, x :: rest) ->
  getNextService c discover s =
    (Ok x,
     mkState
       (heap s ++ [set__current x (set_services rest (created c y (x :: rest)))])
       (sess_set (slot c) (SRef (length (heap s)))
          (sess_set (slot c) (SRef (length (heap s))) (session s)))
       (ESet (slot c) :: ESet (slot c) :: EDiscover (url c) :: trace s)).
Proof.
  intros L Hd.
  pose proof (loaded_add_event _ _ _ _ _ (EDiscover (url c)) L) as L2.
  gns_nothing_found L s.
  rewrite (call_run discover (url c) (y, x :: rest) s Hd). cbv beta iota.
  rewrite (createManager_fresh c y x rest _ _ L2).
  cbn [heap session trace].
  rewrite (hand_out (length (heap s)) (created c y (x :: rest)) x rest (slot c));
    [ | simpl; apply heap_lookup_alloc | reflexivity | reflexivity ].
  simpl. now rewrite heap_insert_alloc.
Qed.

(** X9. A fault of the discovery function passes through
    [getNextService] unchanged and nothing is stored.  When [getManager]
    had found nothing the session is as before; when it had found an
    exhausted manager, that manager has already been deleted from the
    session when the fault arrives. *)
Theorem getNextService_propagates_discovery_fault c discover e s :
  discover (url c) = Raise e ->
  (forall s0,
     getManager c false s = (Ok None, s0) ->
     exists s',
       getNextService c discover s = (Raise e, s') /\
       session s' = session s /\
       trace s' = EDiscover (url c) :: trace s) /\
  (forall a s0 m,
     getManager c false s = (Ok (Some a), s0) ->
     heap s0 !! a = Some m ->
     services m = [] ->
     exists s',
       getNextService c discover s = (Raise e, s') /\
       session s' = sess_del (slot c) (session s) /\
       sess_get (slot c) (session s') = SData DNone /\
       trace s' = EDiscover (url c) :: EDel (slot c) :: trace s).
Proof.
  intros Hd. split.
  - intros s0 H. apply getManager_inv in H.
    rewrite (getNextService_discover_fault c discover e s s0 H Hd).
    eexists. split; [reflexivity | ]. auto.
  - intros a s0 m H Ha Hs. apply getManager_inv in H.
    destruct (getNextService_exhausted_fault c discover a m e s s0 H Ha Hs Hd)
      as (s' & E & Hse & Htr).
    exists s'. repeat split; auto.
    rewrite Hse. apply sess_get_del_eq.
Qed.

(** X10. On a store whose slot does not hold a dangling reference, the
    only exceptions that [getNextService] raises are [TypeError] and
    [AttributeError], from a value in the slot that is not a well-formed
    manager, and what the discovery function itself raises: the
    [StopIteration] of [__next__] and the [KeyError] of [createManager]
    and of [del] never come out of it. *)
Theorem getNextService_raises_only c discover s e s' :
  (forall a, sess_get (slot c) (session s) = SRef a -> heap s !! a <> None) ->
  getNextService c discover s = (Raise e, s') ->
  e = TypeError \/ e = AttributeError \/ discover (url c) = Raise e.
Proof.
  intros Hwf H.
  destruct (getManager c false s) as [[r | e0] s0] eqn:E.
  - apply getManager_inv in E. destruct r as [a | ].
    + destruct (loaded_some _ _ _ _ _ E) as [_ (m & Ha & _)].
      destruct (services m) as [ | x rest] eqn:Hs.
      * destruct (discover (url c)) as [[y [ | x rest]] | e1] eqn:Hd.
        -- destruct (getNextService_exhausted_nothing c discover a m y s s0
                       E Ha Hs Hd) as (s1 & E1 & _). congruence.
        -- destruct (getNextService_rediscovers c discover a m y x rest s s0
                       E Ha Hs Hd) as (s1 & a' & E1 & _). congruence.
        -- destruct (getNextService_exhausted_fault c discover a m e1 s s0
                       E Ha Hs Hd) as (s1 & E1 & _).
           right. right. congruence.
      * destruct (hash_key (session_key m)) as [k | e2] eqn:Hk.
        -- rewrite (getNextService_hands_out c discover a m x rest k s s0
                      E Ha Hs Hk) in H. discriminate.
        -- rewrite (getNextService_store_fault c discover a m x rest e2 s s0
                      E Ha Hs Hk) in H.
           apply hash_key_raises in Hk. left. congruence.
    + destruct (discover (url c)) as [[y [ | x rest]] | e1] eqn:Hd.
      * destruct (getNextService_nothing c discover y s s0 E Hd)
          as (s1 & E1 & _). congruence.
      * destruct (getNextService_discovers c discover y x rest s s0 E Hd)
          as (s1 & a' & E1 & _). congruence.
      * rewrite (getNextService_discover_fault c discover e1 s s0 E Hd) in H.
        right. right. congruence.
  - unfold getNextService in H. rewrite (bind_raise _ _ _ _ _ E) in H.
    injection H as <- <-.
    destruct (getManager_raise_cases c false s e0 s0 E)
      as [-> | [-> | [-> (a & Hv & Ha)]]]; auto.
    exfalso. now apply (Hwf a).
Qed.

Ltac only_on_slot :=
  cbn [forallb only_on andb]; rewrite ?key_eqb_refl; reflexivity.

(** The events of one [getNextService] are on the slot alone when the
    manager it hands out from, if any, is keyed by the slot. *)
Lemma getNextService_events_on_slot c discover s r s0 :
  getManager c false s = (Ok r, s0) ->
  (forall a m x rest,
     r = Some a -> heap s0 !! a = Some m -> services m = x :: rest ->
     hash_key (session_key m) = Ok (slot c)) ->
  exists l,
    trace (snd (getNextService c discover s)) = l ++ trace s /\
    forallb (only_on (slot c)) l = true.
Proof.
  intros E Hkey. apply getManager_inv in E. destruct r as [a | ].
  - destruct (loaded_some _ _ _ _ _ E) as [_ (m & Ha & _)].
    destruct (services m) as [ | x rest] eqn:Hs.
    + destruct (discover (url c)) as [[y [ | x rest]] | e1] eqn:Hd.
      * destruct (getNextService_exhausted_nothing c discover a m y s s0
                    E Ha Hs Hd) as (s1 & E1 & _ & Ht).
        rewrite E1. exists [EDiscover (url c); EDel (slot c)].
        split; [exact Ht | only_on_slot].
      * destruct (getNextService_rediscovers c discover a m y x rest s s0
                    E Ha Hs Hd) as (s1 & a' & E1 & _ & _ & Ht).
        rewrite E1.
        exists [ESet (slot c); ESet (slot c); EDiscover (url c); EDel (slot c)].
        split; [exact Ht | only_on_slot].
      * destruct (getNextService_exhausted_fault c discover a m e1 s s0
                    E Ha Hs Hd) as (s1 & E1 & _ & Ht).
        rewrite E1. exists [EDiscover (url c); EDel (slot c)].
        split; [exact Ht | only_on_slot].
    + rewrite (getNextService_hands_out c discover a m x rest (slot c) s s0
                 E Ha Hs (Hkey a m x rest eq_refl Ha Hs)).
      exists [ESet (slot c)]. split; [reflexivity | only_on_slot].
  - destruct (discover (url c)) as [[y [ | x rest]] | e1] eqn:Hd.
    + destruct (getNextService_nothing c discover y s s0 E Hd)
        as (s1 & E1 & _ & Ht).
      rewrite E1. exists [EDiscover (url c)]. split; [exact Ht | reflexivity].
    + destruct (getNextService_discovers c discover y x rest s s0 E Hd)
        as (s1 & a' & E1 & _ & _ & Ht).
      rewrite E1. exists [ESet (slot c); ESet (slot c); EDiscover (url c)].
      split; [exact Ht | only_on_slot].
    + rewrite (getNextService_discover_fault c discover e1 s s0 E Hd).
      exists [EDiscover (url c)]. split; reflexivity.
Qed.

(** X11. When the manager that [getNextService] finds, if it has pending
    services, is keyed by the slot of this [Discovery] (as every manager
    that [createManager] built is), the call changes no other key of the
    session, whatever the discovery function does; so flows that use
    different suffixes on one session do not disturb each other. *)
Theorem getNextService_touches_only_its_slot c discover s r s0 :
  getManager c false s = (Ok r, s0) ->
  (forall a m x rest,
     r = Some a -> heap s0 !! a = Some m -> services m = x :: rest ->
     hash_key (session_key m) = Ok (slot c)) ->
  (forall k, k <> slot c ->
     sess_get k (session (snd (getNextService c discover s))) =
     sess_get k (session s)) /\
  (forall c2,
     session_key_suffix c2 <> session_key_suffix c ->
     sess_get (slot c2) (session (snd (getNextService c discover s))) =
     sess_get (slot c2) (session s)).
Proof.
  intros E Hkey.
  destruct (getNextService_events_on_slot c discover s r s0 E Hkey)
    as (l & Hl & Hon).
  assert (F : forall k, k <> slot c ->
            sess_get k (session (snd (getNextService c discover s))) =
            sess_get k (session s)).
  { intros k Hk.
    apply (tracks_frame (getNextService c discover) s (slot c) k l);
      auto using tracks_getNextService. }
  split; [exact F | ].
  intros c2 Hne. apply slot_neq in Hne. now apply F.
Qed.

(** ** Discovery.getNextService: successive calls *)

Lemma getNextService_n_reuse c discover a : forall n s m,
  sess_get (slot c) (session s) = SRef a ->
  heap s !! a = Some m ->
  forURL m (url c) = true ->
  session_key m = DStr (getSessionKey c) ->
  n <= length (services m) ->
  exists s' m' l,
    getNextService_n n c discover s = (Ok (firstn n (services m)), s') /\
    sess_get (slot c) (session s') = SRef a /\
    heap s' !! a = Some m' /\
    services m' = skipn n (services m) /\
    trace s' = l ++ trace s /\ discover_calls l = 0 /\
    forURL m' (url c) = true.
Proof.
  induction n as [ | n IHn]; intros s m Hv Ha Hf Hk Hn.
  - exists s, m, []. simpl. unfold ret. repeat split; auto.
  - destruct (services m) as [ | x rest] eqn:Hs; [simpl in Hn; lia | ].
    simpl in Hn.
    assert (Hh : hash_key (session_key m) = Ok (slot c)) by now rewrite Hk.
    pose proof (getNextService_reuse c discover a m x rest (slot c) s
                  Hv Ha Hf Hs Hh) as E.
    set (m1 := set__current x (set_services rest m)) in *.
    set (s1 := mkState (<[a := m1]> (heap s))
                 (sess_set (slot c) (SRef a) (session s))
                 (ESet (slot c) :: trace s)) in *.
    destruct (IHn s1 m1)
      as (s' & m' & l & En & Hv' & Ha' & Hs' & Ht & Hd & Hf').
    + apply sess_get_set_eq.
    + simpl. apply list_lookup_insert_eq. now apply lookup_lt_Some in Ha.
    + exact Hf.
    + exact Hk.
    + simpl. lia.
    + exists s', m', (l ++ [ESet (slot c)]).
      simpl getNextService_n.
      rewrite (bind_ok _ _ _ _ _ E). rewrite (bind_ok _ _ _ _ _ En).
      simpl in *. unfold ret. repeat split; auto.
      * now rewrite <- app_assoc.
      * rewrite discover_calls_app, Hd. reflexivity.
Qed.

(** X12. From an empty slot, with a discovery function that returns the
    services [L] for the URL, [n] calls of [getNextService] in a row
    ([1 <= n <= len(L)]) return the first [n] services of [L] in order and
    call the discovery function once in all; afterwards the slot holds a
    manager whose pending services are the rest of [L]. *)
Theorem getNextService_n_hands_out_in_order c discover y L n s :
  sess_get (slot c) (session s) = SData DNone ->
  discover (url c) = Ok (y, L) ->
  0 < n -> n <= length L ->
  exists s' a m,
    getNextService_n n c discover s = (Ok (firstn n L), s') /\
    discover_calls (events_of (getNextService_n n c discover) s) = 1 /\
    sess_get (slot c) (session s') = SRef a /\
    heap s' !! a = Some m /\
    services m = skipn n L.
Proof.
  intros H0 Hd Hpos Hn.
  destruct n as [ | n]; [lia | ].
  destruct L as [ | x rest]; [simpl in Hn; lia | ]. simpl in Hn.
  pose proof (getNextService_fresh c discover y x rest s H0 Hd) as E.
  set (m1 := set__current x (set_services rest (created c y (x :: rest)))) in *.
  match type of E with _ = (_, ?st) => set (s1 := st) in * end.
  destruct (getNextService_n_reuse c discover (length (heap s)) n s1 m1)
    as (s' & m' & l & En & Hv' & Ha' & Hs' & Ht & Hdc & _).
  - apply sess_get_set_eq.
  - apply heap_lookup_alloc.
  - apply forURL_created.
  - reflexivity.
  - simpl. lia.
  - assert (Erun : getNextService_n (S n) c discover s =
                   (Ok (x :: firstn n rest), s')).
    { simpl getNextService_n.
      rewrite (bind_ok _ _ _ _ _ E). now rewrite (bind_ok _ _ _ _ _ En). }
    exists s', (length (heap s)), m'. split; [exact Erun | ].
    split; [ | auto].
    rewrite (events_of_adds _ _
               (l ++ [ESet (slot c); ESet (slot c); EDiscover (url c)])).
    + rewrite discover_calls_app, Hdc. reflexivity.
    + rewrite Erun. simpl. rewrite Ht. simpl. now rewrite <- app_assoc.
Qed.

(** ** Discovery.getNextService on a plain dict *)

(** X13. With a plain dict for this URL in the slot that has pending
    services and names the slot as its session key, [getNextService]
    returns the first pending service without a discovery and leaves a
    manager object in the slot: its pending services are the rest, its
    current service is the one returned, and [getManager] returns it from
    then on. *)
Theorem getNextService_from_plain_dict c discover d x rest s :
  sess_get (slot c) (session s) = SData (DDict d) ->
  py_list (dict_get d "services") = Ok (x :: rest) ->
  dict_get d "starting_url" = DStr (url c) \/
    dict_get d "yadis_url" = DStr (url c) ->
  dict_get d "session_key" = DStr (getSessionKey c) ->
  exists s1 a m,
    getNextService c discover s = (Ok x, s1) /\
    sess_get (slot c) (session s1) = SRef a /\
    heap s1 !! a = Some m /\
    services m = rest /\ current m = x /\
    starting_url m = dict_get d "starting_url" /\
    yadis_url m = dict_get d "yadis_url" /\
    trace s1 = ESet (slot c) :: trace s /\
    getManager c false s1 = (Ok (Some a), s1).
Proof.
  intros Hv Hl Hu Hk.
  assert (Hf : forURL (rebuilt d (x :: rest)) (url c) = true)
    by now apply forURL_iff.
  pose proof (loaded_dict c false s d (x :: rest) Hv Hl) as L.
  rewrite Hf in L. simpl in L.
  pose proof (getNextService_hands_out c discover (length (heap s))
                (rebuilt d (x :: rest)) x rest (slot c) s _ L) as E.
  rewrite E; [ | simpl; apply heap_lookup_alloc | reflexivity
             | simpl; now rewrite Hk ].
  simpl. rewrite heap_insert_alloc.
  eexists _, (length (heap s)), _. split; [reflexivity | ]. simpl.
  split; [apply sess_get_set_eq | ].
  split; [apply heap_lookup_alloc | ].
  repeat (split; [reflexivity | ]).
  erewrite getManager_ref;
    [ | simpl; apply sess_get_set_eq | simpl; apply heap_lookup_alloc ].
  change (forURL _ (url c)) with (forURL (rebuilt d (x :: rest)) (url c)).
  now rewrite Hf.
Qed.

(** X14. With a plain dict for this URL in the slot whose session key is
    another key than the slot (the key [None] when the dict has no
    [session_key] item), [getNextService] stores the manager it rebuilt
    under that other key and the slot keeps the dict: the next call hands
    out the same service again. *)
Theorem getNextService_repeats_when_keyed_elsewhere c discover d x rest k s :
  sess_get (slot c) (session s) = SData (DDict d) ->
  py_list (dict_get d "services") = Ok (x :: rest) ->
  dict_get d "starting_url" = DStr (url c) \/
    dict_get d "yadis_url" = DStr (url c) ->
  hash_key (dict_get d "session_key") = Ok k ->
  k <> slot c ->
  exists s1 s2,
    getNextService c discover s = (Ok x, s1) /\
    sess_get (slot c) (session s1) = SData (DDict d) /\
    sess_get k (session s1) = SRef (length (heap s)) /\
    getNextService c discover s1 = (Ok x, s2) /\
    sess_get (slot c) (session s2) = SData (DDict d).
Proof.
  intros Hv Hl Hu Hk Hne.
  assert (Hf : forURL (rebuilt d (x :: rest)) (url c) = true)
    by now apply forURL_iff.
  assert (step : forall t,
            sess_get (slot c) (session t) = SData (DDict d) ->
            exists t1,
              getNextService c discover t = (Ok x, t1) /\
              session t1 = sess_set k (SRef (length (heap t))) (session t)).
  { intros t Ht.
    pose proof (loaded_dict c false t d (x :: rest) Ht Hl) as L.
    rewrite Hf in L. simpl in L.
    pose proof (getNextService_hands_out c discover (length (heap t))
                  (rebuilt d (x :: rest)) x rest k t _ L) as E.
    rewrite E; [ | simpl; apply heap_lookup_alloc | reflexivity | exact Hk ].
    eexists. split; reflexivity. }
  assert (keep : forall t v,
            sess_get (slot c) (sess_set k v (session t)) =
            sess_get (slot c) (session t)).
  { intros t v. now apply sess_get_set_ne, key_eqb_neq. }
  destruct (step s Hv) as (s1 & E1 & S1).
  assert (Hv1 : sess_get (slot c) (session s1) = SData (DDict d))
    by (rewrite S1, keep; exact Hv).
  destruct (step s1 Hv1) as (s2 & E2 & S2).
  exists s1, s2. split; [exact E1 | ]. split; [exact Hv1 | ].
  split; [rewrite S1; apply sess_get_set_eq | ].
  split; [exact E2 | ]. rewrite S2, keep. exact Hv1.
Qed.

(** ** YadisServiceManager.started *)

(** X15. A manager that [__init__] has built is not started.  After a
    successful [__next__] the manager is started exactly when the service
    it returned is not [None], and [current] is that service; a call of
    [__next__] that raises [StopIteration] leaves [started] as it was. *)
Theorem started_follows_next a s :
  (forall su yu sv sk s1,
     YadisServiceManager.__init__ su yu sv sk s = (Ok a, s1) ->
     exists m, heap s1 !! a = Some m /\ started m = false) /\
  (forall x s1,
     __next__ a s = (Ok x, s1) ->
     exists m1,
       heap s1 !! a = Some m1 /\
       started m1 = negb (is_None x) /\ current m1 = x) /\
  (forall m s1,
     heap s !! a = Some m ->
     __next__ a s = (Raise StopIteration, s1) ->
     exists m1, heap s1 !! a = Some m1 /\ started m1 = started m).
Proof.
  split; [ | split].
  - intros su yu sv sk s1 H.
    destruct (py_list sv) as [l | e] eqn:Hl.
    + rewrite (init_run su yu sv sk l s Hl) in H. injection H as <- <-.
      eexists. split; [simpl; apply heap_lookup_alloc | reflexivity].
    + rewrite (init_fail su yu sv sk e s Hl) in H. discriminate.
  - intros x s1 H.
    destruct (heap s !! a) as [m | ] eqn:Ha.
    + destruct (next_ok_inv a x s s1 m Ha H)
        as (rest & m1 & Hs & Ha1 & _ & Hc & _).
      exists m1. repeat split; auto.
      unfold started. unfold current in Hc. now rewrite Hc.
    + unfold __next__ in H. unfold_monad_in H. rewrite Ha in H. discriminate.
  - intros m s1 Ha H.
    destruct (services m) as [ | x rest] eqn:Hs.
    + rewrite (next_empty a m s Ha Hs) in H. injection H as <-.
      now exists m.
    + rewrite (next_some a m x rest s Ha Hs) in H. discriminate.
Qed.

(** ** Discovery.getNextService when the URL changes *)

(** X16. With a manager for another URL in the slot, [getNextService]
    does not raise [KeyError] and deletes nothing: it discovers, and
    [createManager] stores the new manager over the old one.  The old
    manager object is unchanged but the slot no longer refers to it; a
    following [getManager] returns the new manager. *)
Theorem getNextService_replaces_other_url c discover a0 m0 y x rest s :
  sess_get (slot c) (session s) = SRef a0 ->
  heap s !! a0 = Some m0 ->
  forURL m0 (url c) = false ->
  discover (url c) = Ok (y, x :: rest) ->
  exists s1 a1 m1,
    getNextService c discover s = (Ok x, s1) /\
    trace s1 = ESet (slot c) :: ESet (slot c) :: EDiscover (url c) :: trace s /\
    sess_get (slot c) (session s1) = SRef a1 /\ a1 <> a0 /\
    heap s1 !! a0 = Some m0 /\
    heap s1 !! a1 = Some m1 /\
    starting_url m1 = DStr (url c) /\ yadis_url m1 = y /\
    services m1 = rest /\ current m1 = x /\
    getManager c false s1 = (Ok (Some a1), s1).
Proof.
  intros Hv Ha Hf Hd.
  pose proof (loaded_ref c false s a0 m0 Hv Ha) as L.
  rewrite Hf in L. simpl in L.
  pose proof (getNextService_discovers_in_place c discover y x rest s L Hd) as E.
  set (m1 := set__current x (set_services rest (created c y (x :: rest)))) in *.
  match type of E with _ = (_, ?st) => set (s1 := st) in * end.
  assert (Hv1 : sess_get (slot c) (session s1) = SRef (length (heap s)))
    by apply sess_get_set_eq.
  assert (Ha1 : heap s1 !! length (heap s) = Some m1) by apply heap_lookup_alloc.
  exists s1, (length (heap s)), m1.
  split; [exact E | ]. split; [reflexivity | ]. split; [exact Hv1 | ].
  split; [apply lookup_lt_Some in Ha; lia | ].
  split; [simpl; now apply lookup_app_l_Some | ].
  split; [exact Ha1 | ]. repeat (split; [reflexivity | ]).
  rewrite (getManager_ref c false s1 _ m1 Hv1 Ha1).
  change (forURL m1 (url c)) with (forURL (created c y (x :: rest)) (url c)).
  now rewrite forURL_created.
Qed.

(** ** Iterating over a manager *)

Lemma collect_drains a : forall fuel s m,
  heap s !! a = Some m ->
  length (services m) < fuel ->
  exists s' m',
    collect fuel a s = (Ok (Some (services m)), s') /\
    heap s' !! a = Some m' /\ services m' = [] /\
    (services m <> [] -> current m' = List.last (services m) DNone) /\
    session s' = session s /\ trace s' = trace s.
Proof.
  induction fuel as [ | fuel IH]; intros s m Ha Hlen; [lia | ].
  destruct (services m) as [ | x rest] eqn:Hs.
  - exists s, m. simpl collect. rewrite (next_empty a m s Ha Hs).
    repeat split; auto. congruence.
  - pose (m1 := set__current x (set_services rest m)).
    pose (s1 := mkState (<[a := m1]> (heap s)) (session s) (trace s)).
    assert (Ha1 : heap s1 !! a = Some m1).
    { simpl. apply list_lookup_insert_eq. now apply lookup_lt_Some in Ha. }
    destruct (IH s1 m1 Ha1) as (s' & m' & Ec & Ha' & Hs' & Hc & Hse & Htr).
    { simpl in *. lia. }
    exists s', m'. simpl collect. rewrite (next_some a m x rest s Ha Hs).
    fold m1. fold s1. rewrite (bind_ok _ _ _ _ _ Ec). unfold ret. simpl in *.
    repeat split; auto.
    intros _. destruct rest as [ | x2 rest2].
    + simpl in Ec. destruct fuel as [ | f]; [lia | ].
      simpl in Ec. rewrite (next_empty a m1 s1 Ha1 eq_refl) in Ec.
      injection Ec as <-. simpl in Ha'.
      assert (m' = m1) as -> by congruence. reflexivity.
    + apply Hc. discriminate.
Qed.

(** X17. A manager is its own iterator, so iterating over it uses it up:
    [list(manager)], given fuel for one call of [__next__] more than there
    are pending services, returns the pending services in order and leaves
    the manager with none pending and the last of them current; the
    session is not touched, and a second [list(manager)] returns the empty
    list. *)
Theorem list_of_drains_manager a m fuel s :
  heap s !! a = Some m ->
  length (services m) < fuel ->
  exists s' m',
    list_of fuel a s = (Ok (Some (services m)), s') /\
    heap s' !! a = Some m' /\ __len__ m' = 0 /\
    (services m <> [] -> current m' = List.last (services m) DNone) /\
    session s' = session s /\ trace s' = trace s /\
    list_of fuel a s' = (Ok (Some []), s').
Proof.
  intros Ha Hlen.
  destruct (collect_drains a fuel s m Ha Hlen)
    as (s' & m' & Ec & Ha' & Hs' & Hc & Hse & Htr).
  exists s', m'. unfold list_of, __iter__.
  rewrite !(bind_ok _ _ _ _ _ (eq_refl : ret a _ = (Ok a, _))).
  split; [exact Ec | ]. split; [exact Ha' | ].
  split; [unfold __len__; now rewrite Hs' | ].
  repeat (split; [assumption | ]).
  destruct fuel as [ | f]; [lia | ].
  simpl collect. now rewrite (next_empty a m' s' Ha' Hs').
Qed.

(** ** Discovery.cleanup, then a new flow *)

(** X18. After a [cleanup] that found a manager, the next
    [getNextService] starts over: it calls the discovery function and hands
    out the first service it returns, whatever the manager had handed out
    before. *)
Theorem cleanup_then_getNextService_rediscovers c force discover y x rest s a s0 :
  getManager c force s = (Ok (Some a), s0) ->
  discover (url c) = Ok (y, x :: rest) ->
  exists v s1 s2,
    cleanup c force s = (Ok v, s1) /\
    getNextService c discover s1 = (Ok x, s2) /\
    trace s2 =
      ESet (slot c) :: ESet (slot c) :: EDiscover (url c)
        :: EDel (slot c) :: trace s.
Proof.
  intros H Hd. apply getManager_inv in H.
  destruct (loaded_some _ _ _ _ _ H) as [_ (m & Ha & _)].
  destruct (cleanup_some c force s a s0 m H Ha) as (s1 & Ec & Hse & Htr).
  assert (L : loaded c false s1 None s1).
  { constructor. rewrite Hse. apply sess_get_del_eq. }
  destruct (getNextService_discovers c discover y x rest s1 s1 L Hd)
    as (s2 & a' & E & _ & _ & Ht).
  exists (current m), s1, s2. split; [exact Ec | ]. split; [exact E | ].
  now rewrite Ht, Htr.
Qed.

(** ** Discovery.getManager on the plain dict of a manager *)

(** X19. Whether the slot holds a manager [Q] or the plain dict of its
    items, [getManager(force)] gives the same answer: [None] in both cases
    or a manager in both, and the manager rebuilt from the dict has the
    starting URL, the Yadis URL, the services and the session key of [Q],
    so it answers [forURL] and [len] as [Q] does. *)
Theorem getManager_agrees_on_plain_dict c force s sd a Q :
  sess_get (slot c) (session s) = SRef a ->
  heap s !! a = Some Q ->
  sess_get (slot c) (session sd) = SData (DDict (as_dict Q)) ->
  exists r rd sd1,
    getManager c force s = (Ok r, s) /\
    getManager c force sd = (Ok rd, sd1) /\
    (r = None <-> rd = None) /\
    (forall ad, rd = Some ad ->
       exists Qd,
         heap sd1 !! ad = Some Qd /\
         starting_url Qd = starting_url Q /\ yadis_url Qd = yadis_url Q /\
         services Qd = services Q /\ session_key Qd = session_key Q /\
         __len__ Qd = __len__ Q /\
         forall u, forURL Qd u = forURL Q u).
Proof.
  intros Hv Ha Hd.
  assert (Hl : py_list (dict_get (as_dict Q) "services") = Ok (services Q))
    by reflexivity.
  assert (Hf : forall u,
            forURL (rebuilt (as_dict Q) (services Q)) u = forURL Q u)
    by reflexivity.
  eexists _, _, _.
  split; [apply (getManager_ref c force s a Q Hv Ha) | ].
  split; [apply (getManager_dict c force sd (as_dict Q) (services Q) Hd Hl) | ].
  rewrite Hf. destruct (forURL Q (url c) || force).
  - split; [split; discriminate | ].
    intros ad [= <-]. exists (rebuilt (as_dict Q) (services Q)).
    split; [simpl; apply heap_lookup_alloc | ]. repeat split.
  - split; [split; reflexivity | discriminate].
Qed.

(** ** Discovery.getNextService: a full round *)

(** X20. From an empty slot, with a discovery function that returns the
    services [x :: rest] for the URL, [len + 1] calls of [getNextService]
    in a row return all the services in order and then the first one
    again: the last call finds the manager exhausted and discovers anew,
    so the discovery function is called twice in all. *)
Theorem getNextService_n_starts_over c discover y x rest s :
  sess_get (slot c) (session s) = SData DNone ->
  discover (url c) = Ok (y, x :: rest) ->
  exists s',
    getNextService_n (S (S (length rest))) c discover s =
      (Ok ((x :: rest) ++ [x]), s') /\
    discover_calls
      (events_of (getNextService_n (S (S (length rest))) c discover) s) = 2.
Proof.
  intros H0 Hd.
  pose proof (getNextService_fresh c discover y x rest s H0 Hd) as E.
  set (m1 := set__current x (set_services rest (created c y (x :: rest)))) in *.
  match type of E with _ = (_, ?st) => set (s1 := st) in * end.
  destruct (getNextService_n_reuse c discover (length (heap s))
              (length rest) s1 m1)
    as (s2 & m2 & l & En & Hv2 & Ha2 & Hs2 & Ht2 & Hdc & Hf2).
  - apply sess_get_set_eq.
  - apply heap_lookup_alloc.
  - apply forURL_created.
  - reflexivity.
  - reflexivity.
  - simpl in En, Hs2. rewrite firstn_all in En. rewrite drop_all in Hs2.
    pose proof (getNextService_rediscover c discover (length (heap s)) m2
                  y x rest s2 Hv2 Ha2 Hf2 Hs2 Hd) as E3.
    match type of E3 with _ = (_, ?st) => set (s3 := st) in * end.
    assert (Etail : forall n t xs t',
              getNextService_n n c discover t = (Ok xs, t') ->
              forall z t'',
                getNextService c discover t' = (Ok z, t'') ->
                getNextService_n (S n) c discover t = (Ok (xs ++ [z]), t'')).
    { induction n as [ | n IHn]; intros t xs t' Hn z t'' Hz.
      - simpl in Hn. unfold ret in Hn. injection Hn as <- <-.
        simpl. now rewrite (bind_ok _ _ _ _ _ Hz).
      - simpl in Hn. unfold bind at 1 in Hn.
        destruct (getNextService c discover t) as [[x0 | e0] t0] eqn:E0;
          [ | discriminate].
        unfold bind at 1 in Hn.
        destruct (getNextService_n n c discover t0) as [[ys | e0] t1] eqn:E1;
          [ | discriminate].
        unfold ret in Hn. injection Hn as <- <-.
        pose proof (IHn t0 ys t1 E1 z t'' Hz) as IH.
        change (getNextService_n (S (S n)) c discover t) with
          (bind (getNextService c discover)
             (fun x1 => bind (getNextService_n (S n) c discover)
                          (fun xs1 => ret (x1 :: xs1))) t).
        rewrite (bind_ok _ _ _ _ _ E0). now rewrite (bind_ok _ _ _ _ _ IH). }
    assert (Efirst : getNextService_n (S (length rest)) c discover s =
                     (Ok (x :: rest), s2)).
    { simpl getNextService_n.
      rewrite (bind_ok _ _ _ _ _ E). now rewrite (bind_ok _ _ _ _ _ En). }
    pose proof (Etail _ _ _ _ Efirst _ _ E3) as Eall.
    exists s3. split; [exact Eall | ].
    rewrite (events_of_adds _ _
               ([ESet (slot c); ESet (slot c); EDiscover (url c); EDel (slot c)]
                ++ l ++ [ESet (slot c); ESet (slot c); EDiscover (url c)])).
    + rewrite !discover_calls_app, Hdc. reflexivity.
    + rewrite Eall. simpl. rewrite Ht2. simpl. now rewrite <- app_assoc.
Qed.

(** ** Witnesses of the further properties *)


Lemma getManager_reads_only_witness :
  heap Ex2.holding_record !! 0 = None /\
  heap Ex.after_one !! 0 = Some Ex2.advanced /\
  heap (snd (getManager Ex.c false Ex.after_one)) !! 0 = Some Ex2.advanced /\
  session (snd (getManager Ex.c false Ex2.holding_record)) =
    session Ex2.holding_record.
Proof.
  assert (Ha : heap Ex.after_one !! 0 = Some Ex2.advanced) by reflexivity.
  split; [reflexivity | ]. split; [exact Ha | ]. split.
  - exact (proj2 (proj2 (getManager_reads_only Ex.c false Ex.after_one))
             0 Ex2.advanced Ha).
  - exact (proj1 (getManager_reads_only Ex.c false Ex2.holding_record)).
Defined.

Lemma destroyManager_removes_only_owned_witness :
  sess_get (slot Ex.c) (session Ex.after_one) = SRef 0 /\
  heap Ex.after_one !! 0 = Some Ex2.advanced /\
  forURL Ex2.advanced (url Ex.c_other) || false = false /\
  destroyManager Ex.c_other false Ex.after_one = (Ok tt, Ex.after_one) /\
  forURL Ex2.advanced (url Ex.c) || false = true /\
  (exists s',
     destroyManager Ex.c false Ex.after_one = (Ok tt, s') /\
     sess_mem (slot Ex.c) (session s') = false) /\
  sess_get (slot Ex.c) (session Ex.empty) = SData DNone /\
  destroyManager Ex.c true Ex.empty = (Ok tt, Ex.empty).
Proof.
  assert (Hv : sess_get (slot Ex.c) (session Ex.after_one) = SRef 0)
    by reflexivity.
  assert (Ha : heap Ex.after_one !! 0 = Some Ex2.advanced) by reflexivity.
  assert (F1 : forURL Ex2.advanced (url Ex.c_other) || false = false)
    by reflexivity.
  assert (F2 : forURL Ex2.advanced (url Ex.c) || false = true) by reflexivity.
  assert (H0 : sess_get (slot Ex.c) (session Ex.empty) = SData DNone)
    by reflexivity.
  split; [exact Hv | ]. split; [exact Ha | ]. split; [exact F1 | ].
  split.
  { exact (proj1 (proj1 (destroyManager_removes_only_owned Ex.c_other false
                           Ex.after_one) 0 Ex2.advanced Hv Ha) F1). }
  split; [exact F2 | ]. split.
  { destruct (proj2 (proj1 (destroyManager_removes_only_owned Ex.c false
                              Ex.after_one) 0 Ex2.advanced Hv Ha) F2)
      as (s' & E & Hm & _).
    exists s'. auto. }
  split; [exact H0 | ].
  exact (proj2 (destroyManager_removes_only_owned Ex.c true Ex.empty) H0).
Defined.

Lemma cleanup_touches_only_its_slot_witness :
  slot Ex2.c_login <> slot Ex.c /\
  sess_get (slot Ex2.c_login) (session (snd (cleanup Ex.c false Ex2.two_flows))) =
    sess_get (slot Ex2.c_login) (session Ex2.two_flows) /\
  sess_get (slot Ex2.c_login) (session Ex2.two_flows) = SRef 1.
Proof.
  assert (Hne : slot Ex2.c_login <> slot Ex.c) by discriminate.
  split; [exact Hne | ]. split; [ | reflexivity].
  exact (proj2 (cleanup_touches_only_its_slot Ex.c false Ex2.two_flows)
           (slot Ex2.c_login) Hne).
Defined.

Lemma createManager_then_getManager_witness :
  getManager Ex.c false Ex.empty = (Ok None, Ex.empty) /\
  exists a s1,
    createManager Ex.c [DSvc 1; DSvc 2] Ex.resolved Ex.empty = (Ok (Some a), s1) /\
    getManager Ex.c false s1 = (Ok (Some a), s1).
Proof.
  assert (G : getManager Ex.c false Ex.empty = (Ok None, Ex.empty))
    by reflexivity.
  split; [exact G | ].
  destruct (createManager_then_getManager Ex.c Ex.resolved (DSvc 1) [DSvc 2]
              Ex.empty Ex.empty G) as (a & s1 & m & E1 & E2 & _).
  exists a, s1. auto.
Defined.


Lemma createManager_without_services_witness :
  getManager Ex.c false Ex.empty = (Ok None, Ex.empty) /\
  createManager Ex.c [] Ex.resolved Ex.empty = (Ok None, Ex.empty) /\
  getManager Ex.c false Ex.after_two = (Ok (Some 0), Ex.after_two) /\
  heap Ex.after_two !! 0 = Some Ex.exhausted /\
  services Ex.exhausted = [] /\
  createManager Ex.c [] Ex.resolved Ex.after_two = (Ok None, Ex.after_two).
Proof.
  assert (G0 : getManager Ex.c false Ex.empty = (Ok None, Ex.empty))
    by reflexivity.
  assert (G2 : getManager Ex.c false Ex.after_two = (Ok (Some 0), Ex.after_two))
    by reflexivity.
  assert (Ha : heap Ex.after_two !! 0 = Some Ex.exhausted) by reflexivity.
  assert (Hs : services Ex.exhausted = []) by reflexivity.
  split; [exact G0 | ]. split.
  { exact (proj1 (proj1 (createManager_without_services Ex.c Ex.resolved Ex.empty)
                    Ex.empty G0)). }
  split; [exact G2 | ]. split; [exact Ha | ]. split; [exact Hs | ].
  exact (proj1 (proj2 (createManager_without_services Ex.c Ex.resolved
                         Ex.after_two) 0 Ex.after_two Ex.exhausted G2 Ha Hs)).
Defined.

Lemma createManager_destroyManager_restores_witness :
  sess_mem (slot Ex.c) (session Ex.empty) = false /\
  exists a s1 s2,
    createManager Ex.c [DSvc 1] Ex.resolved Ex.empty = (Ok (Some a), s1) /\
    destroyManager Ex.c false s1 = (Ok tt, s2) /\
    session s2 = session Ex.empty.
Proof.
  assert (H : sess_mem (slot Ex.c) (session Ex.empty) = false) by reflexivity.
  split; [exact H | ].
  exact (createManager_destroyManager_restores Ex.c false Ex.resolved (DSvc 1) []
           Ex.empty H).
Defined.

Lemma getNextService_propagates_discovery_fault_witness :
  Ex2.discover_fault (url Ex.c) = Raise (Fault 7) /\
  getManager Ex.c false Ex.empty = (Ok None, Ex.empty) /\
  (exists s',
     getNextService Ex.c Ex2.discover_fault Ex.empty = (Raise (Fault 7), s') /\
     session s' = session Ex.empty) /\
  getManager Ex.c false Ex.after_two = (Ok (Some 0), Ex.after_two) /\
  heap Ex.after_two !! 0 = Some Ex.exhausted /\
  services Ex.exhausted = [] /\
  (exists s',
     getNextService Ex.c Ex2.discover_fault Ex.after_two = (Raise (Fault 7), s') /\
     sess_get (slot Ex.c) (session s') = SData DNone).
Proof.
  assert (Hd : Ex2.discover_fault (url Ex.c) = Raise (Fault 7)) by reflexivity.
  assert (G0 : getManager Ex.c false Ex.empty = (Ok None, Ex.empty))
    by reflexivity.
  assert (G2 : getManager Ex.c false Ex.after_two = (Ok (Some 0), Ex.after_two))
    by reflexivity.
  assert (Ha : heap Ex.after_two !! 0 = Some Ex.exhausted) by reflexivity.
  assert (Hs : services Ex.exhausted = []) by reflexivity.
  split; [exact Hd | ]. split; [exact G0 | ]. split.
  { destruct (proj1 (getNextService_propagates_discovery_fault Ex.c
                       Ex2.discover_fault (Fault 7) Ex.empty Hd) Ex.empty G0)
      as (s' & E & Hse & _).
    exists s'. auto. }
  split; [exact G2 | ]. split; [exact Ha | ]. split; [exact Hs | ].
  destruct (proj2 (getNextService_propagates_discovery_fault Ex.c
                     Ex2.discover_fault (Fault 7) Ex.after_two Hd)
              0 Ex.after_two Ex.exhausted G2 Ha Hs)
    as (s' & E & _ & Hv & _).
  exists s'. auto.
Defined.

Lemma getNextService_raises_only_witness :
  (forall a, sess_get (slot Ex.c) (session Ex.empty) = SRef a ->
     heap Ex.empty !! a <> None) /\
  getNextService Ex.c Ex2.discover_fault Ex.empty =
    (Raise (Fault 7),
     mkState [] [] [EDiscover (url Ex.c)]) /\
  (Fault 7 = TypeError \/ Fault 7 = AttributeError \/
   Ex2.discover_fault (url Ex.c) = Raise (Fault 7)).
Proof.
  assert (Hwf : forall a, sess_get (slot Ex.c) (session Ex.empty) = SRef a ->
                  heap Ex.empty !! a <> None)
    by (intros a H; discriminate H).
  assert (E : getNextService Ex.c Ex2.discover_fault Ex.empty =
              (Raise (Fault 7), mkState [] [] [EDiscover (url Ex.c)]))
    by reflexivity.
  split; [exact Hwf | ]. split; [exact E | ].
  exact (getNextService_raises_only Ex.c Ex2.discover_fault Ex.empty
           (Fault 7) _ Hwf E).
Defined.

Lemma getNextService_touches_only_its_slot_witness :
  getManager Ex.c false Ex2.two_flows = (Ok (Some 0), Ex2.two_flows) /\
  session_key_suffix Ex2.c_login <> session_key_suffix Ex.c /\
  sess_get (slot Ex2.c_login)
    (session (snd (getNextService Ex.c Ex.discover Ex2.two_flows))) =
  sess_get (slot Ex2.c_login) (session Ex2.two_flows).
Proof.
  assert (G : getManager Ex.c false Ex2.two_flows = (Ok (Some 0), Ex2.two_flows))
    by reflexivity.
  assert (Hne : session_key_suffix Ex2.c_login <> session_key_suffix Ex.c)
    by discriminate.
  split; [exact G | ]. split; [exact Hne | ].
  apply (getNextService_touches_only_its_slot Ex.c Ex.discover Ex2.two_flows
           (Some 0) Ex2.two_flows G); [ | exact Hne].
  intros a m x rest [= <-] Hm _. injection Hm as <-. reflexivity.
Defined.

Lemma getNextService_n_hands_out_in_order_witness :
  sess_get (slot Ex.c) (session Ex.empty) = SData DNone /\
  Ex2.discover_three (url Ex.c) = Ok (Ex.resolved, [DSvc 1; DSvc 2; DSvc 3]) /\
  0 < 2 /\ 2 <= length [DSvc 1; DSvc 2; DSvc 3] /\
  exists s',
    getNextService_n 2 Ex.c Ex2.discover_three Ex.empty =
      (Ok [DSvc 1; DSvc 2], s') /\
    discover_calls
      (events_of (getNextService_n 2 Ex.c Ex2.discover_three) Ex.empty) = 1.
Proof.
  assert (H0 : sess_get (slot Ex.c) (session Ex.empty) = SData DNone)
    by reflexivity.
  assert (Hd : Ex2.discover_three (url Ex.c) =
               Ok (Ex.resolved, [DSvc 1; DSvc 2; DSvc 3])) by reflexivity.
  assert (H1 : 0 < 2) by lia.
  assert (H2 : 2 <= length [DSvc 1; DSvc 2; DSvc 3]) by (simpl; lia).
  split; [exact H0 | ]. split; [exact Hd | ]. split; [exact H1 | ].
  split; [exact H2 | ].
  destruct (getNextService_n_hands_out_in_order Ex.c Ex2.discover_three
              Ex.resolved [DSvc 1; DSvc 2; DSvc 3] 2 Ex.empty H0 Hd H1 H2)
    as (s' & a & m & E & Hc & _).
  exists s'. auto.
Defined.

Lemma getNextService_from_plain_dict_witness :
  sess_get (slot Ex.c) (session Ex2.holding_record) = SData (DDict Ex2.record) /\
  py_list (dict_get Ex2.record "services") = Ok [DSvc 1; DSvc 2] /\
  dict_get Ex2.record "starting_url" = DStr (url Ex.c) /\
  dict_get Ex2.record "session_key" = DStr (getSessionKey Ex.c) /\
  exists s1 a,
    getNextService Ex.c Ex.discover_nothing Ex2.holding_record = (Ok (DSvc 1), s1) /\
    sess_get (slot Ex.c) (session s1) = SRef a /\
    getManager Ex.c false s1 = (Ok (Some a), s1).
Proof.
  assert (Hv : sess_get (slot Ex.c) (session Ex2.holding_record) =
               SData (DDict Ex2.record)) by reflexivity.
  assert (Hl : py_list (dict_get Ex2.record "services") = Ok [DSvc 1; DSvc 2])
    by reflexivity.
  assert (Hu : dict_get Ex2.record "starting_url" = DStr (url Ex.c))
    by reflexivity.
  assert (Hk : dict_get Ex2.record "session_key" = DStr (getSessionKey Ex.c))
    by reflexivity.
  split; [exact Hv | ]. split; [exact Hl | ]. split; [exact Hu | ].
  split; [exact Hk | ].
  destruct (getNextService_from_plain_dict Ex.c Ex.discover_nothing Ex2.record
              (DSvc 1) [DSvc 2] Ex2.holding_record Hv Hl (or_introl Hu) Hk)
    as (s1 & a & m & E & Hv1 & _ & _ & _ & _ & _ & _ & G).
  exists s1, a. auto.
Defined.

Lemma getNextService_repeats_when_keyed_elsewhere_witness :
  sess_get (slot Ex.c) (session Ex2.holding_record_without_key) =
    SData (DDict Ex2.record_without_key) /\
  py_list (dict_get Ex2.record_without_key "services") = Ok [DSvc 1; DSvc 2] /\
  dict_get Ex2.record_without_key "starting_url" = DStr (url Ex.c) /\
  hash_key (dict_get Ex2.record_without_key "session_key") = Ok KNone /\
  KNone <> slot Ex.c /\
  exists s1 s2,
    getNextService Ex.c Ex.discover Ex2.holding_record_without_key =
      (Ok (DSvc 1), s1) /\
    getNextService Ex.c Ex.discover s1 = (Ok (DSvc 1), s2).
Proof.
  assert (Hv : sess_get (slot Ex.c) (session Ex2.holding_record_without_key) =
               SData (DDict Ex2.record_without_key)) by reflexivity.
  assert (Hl : py_list (dict_get Ex2.record_without_key "services") =
               Ok [DSvc 1; DSvc 2]) by reflexivity.
  assert (Hu : dict_get Ex2.record_without_key "starting_url" = DStr (url Ex.c))
    by reflexivity.
  assert (Hk : hash_key (dict_get Ex2.record_without_key "session_key") = Ok KNone)
    by reflexivity.
  assert (Hne : KNone <> slot Ex.c) by discriminate.
  split; [exact Hv | ]. split; [exact Hl | ]. split; [exact Hu | ].
  split; [exact Hk | ]. split; [exact Hne | ].
  destruct (getNextService_repeats_when_keyed_elsewhere Ex.c Ex.discover
              Ex2.record_without_key (DSvc 1) [DSvc 2] KNone
              Ex2.holding_record_without_key Hv Hl (or_introl Hu) Hk Hne)
    as (s1 & s2 & E1 & _ & _ & E2 & _).
  exists s1, s2. auto.
Defined.

Lemma started_follows_next_witness :
  heap Ex.after_one !! 0 = Some Ex2.advanced /\
  (exists s1 m1,
     __next__ 0 Ex.after_one = (Ok (DSvc 2), s1) /\
     heap s1 !! 0 = Some m1 /\ started m1 = true) /\
  (exists m1,
     heap Ex.after_two !! 0 = Some m1 /\ started m1 = started Ex.exhausted).
Proof.
  assert (E : __next__ 0 Ex.after_one =
              (Ok (DSvc 2), snd (__next__ 0 Ex.after_one))) by reflexivity.
  assert (Ha : heap Ex.after_two !! 0 = Some Ex.exhausted) by reflexivity.
  assert (E2 : __next__ 0 Ex.after_two = (Raise StopIteration, Ex.after_two))
    by reflexivity.
  split; [reflexivity | ]. split.
  - destruct (proj1 (proj2 (started_follows_next 0 Ex.after_one)) _ _ E)
      as (m1 & H1 & H2 & _).
    eexists _, m1. split; [exact E | ]. auto.
  - exact (proj2 (proj2 (started_follows_next 0 Ex.after_two))
             Ex.exhausted Ex.after_two Ha E2).
Defined.

Lemma getNextService_replaces_other_url_witness :
  sess_get (slot Ex.c_other) (session Ex.after_one) = SRef 0 /\
  heap Ex.after_one !! 0 = Some Ex2.advanced /\
  forURL Ex2.advanced (url Ex.c_other) = false /\
  Ex.discover (url Ex.c_other) = Ok (Ex.resolved, [DSvc 1; DSvc 2]) /\
  exists s1 a1,
    getNextService Ex.c_other Ex.discover Ex.after_one = (Ok (DSvc 1), s1) /\
    sess_get (slot Ex.c_other) (session s1) = SRef a1 /\ a1 <> 0 /\
    heap s1 !! 0 = Some Ex2.advanced.
Proof.
  assert (Hv : sess_get (slot Ex.c_other) (session Ex.after_one) = SRef 0)
    by reflexivity.
  assert (Ha : heap Ex.after_one !! 0 = Some Ex2.advanced) by reflexivity.
  assert (Hf : forURL Ex2.advanced (url Ex.c_other) = false) by reflexivity.
  assert (Hd : Ex.discover (url Ex.c_other) = Ok (Ex.resolved, [DSvc 1; DSvc 2]))
    by reflexivity.
  split; [exact Hv | ]. split; [exact Ha | ]. split; [exact Hf | ].
  split; [exact Hd | ].
  destruct (getNextService_replaces_other_url Ex.c_other Ex.discover 0
              Ex2.advanced Ex.resolved (DSvc 1) [DSvc 2] Ex.after_one
              Hv Ha Hf Hd)
    as (s1 & a1 & m1 & E & _ & Hv1 & Hne & Ha0 & _).
  exists s1, a1. auto.
Defined.

Lemma list_of_drains_manager_witness :
  heap Ex.after_one !! 0 = Some Ex2.advanced /\
  length (services Ex2.advanced) < 3 /\
  exists s',
    list_of 3 0 Ex.after_one = (Ok (Some [DSvc 2]), s') /\
    list_of 3 0 s' = (Ok (Some []), s').
Proof.
  assert (Ha : heap Ex.after_one !! 0 = Some Ex2.advanced) by reflexivity.
  assert (Hl : length (services Ex2.advanced) < 3) by (simpl; lia).
  split; [exact Ha | ]. split; [exact Hl | ].
  destruct (list_of_drains_manager 0 Ex2.advanced 3 Ex.after_one Ha Hl)
    as (s' & m' & E & _ & _ & _ & _ & _ & E2).
  exists s'. auto.
Defined.

Lemma cleanup_then_getNextService_rediscovers_witness :
  getManager Ex.c false Ex.after_one = (Ok (Some 0), Ex.after_one) /\
  Ex.discover (url Ex.c) = Ok (Ex.resolved, [DSvc 1; DSvc 2]) /\
  exists v s1 s2,
    cleanup Ex.c false Ex.after_one = (Ok v, s1) /\
    getNextService Ex.c Ex.discover s1 = (Ok (DSvc 1), s2).
Proof.
  assert (G : getManager Ex.c false Ex.after_one = (Ok (Some 0), Ex.after_one))
    by reflexivity.
  assert (Hd : Ex.discover (url Ex.c) = Ok (Ex.resolved, [DSvc 1; DSvc 2]))
    by reflexivity.
  split; [exact G | ]. split; [exact Hd | ].
  destruct (cleanup_then_getNextService_rediscovers Ex.c false Ex.discover
              Ex.resolved (DSvc 1) [DSvc 2] Ex.after_one 0 Ex.after_one G Hd)
    as (v & s1 & s2 & E1 & E2 & _).
  exists v, s1, s2. auto.
Defined.

Lemma getManager_agrees_on_plain_dict_witness :
  sess_get (slot Ex.c) (session Ex.after_one) = SRef 0 /\
  heap Ex.after_one !! 0 = Some Ex2.advanced /\
  sess_get (slot Ex.c) (session Ex2.holding_advanced_record) =
    SData (DDict (as_dict Ex2.advanced)) /\
  exists r rd sd1,
    getManager Ex.c false Ex.after_one = (Ok r, Ex.after_one) /\
    getManager Ex.c false Ex2.holding_advanced_record = (Ok rd, sd1) /\
    (r = None <-> rd = None).
Proof.
  assert (Hv : sess_get (slot Ex.c) (session Ex.after_one) = SRef 0)
    by reflexivity.
  assert (Ha : heap Ex.after_one !! 0 = Some Ex2.advanced) by reflexivity.
  assert (Hd : sess_get (slot Ex.c) (session Ex2.holding_advanced_record) =
               SData (DDict (as_dict Ex2.advanced))) by reflexivity.
  split; [exact Hv | ]. split; [exact Ha | ]. split; [exact Hd | ].
  destruct (getManager_agrees_on_plain_dict Ex.c false Ex.after_one
              Ex2.holding_advanced_record 0 Ex2.advanced Hv Ha Hd)
    as (r & rd & sd1 & E1 & E2 & H & _).
  exists r, rd, sd1. auto.
Defined.

Lemma getNextService_n_starts_over_witness :
  sess_get (slot Ex.c) (session Ex.empty) = SData DNone /\
  Ex.discover (url Ex.c) = Ok (Ex.resolved, [DSvc 1; DSvc 2]) /\
  exists s',
    getNextService_n 3 Ex.c Ex.discover Ex.empty =
      (Ok [DSvc 1; DSvc 2; DSvc 1], s').
Proof.
  assert (H0 : sess_get (slot Ex.c) (session Ex.empty) = SData DNone)
    by reflexivity.
  assert (Hd : Ex.discover (url Ex.c) = Ok (Ex.resolved, [DSvc 1; DSvc 2]))
    by reflexivity.
  split; [exact H0 | ]. split; [exact Hd | ].
  destruct (getNextService_n_starts_over Ex.c Ex.discover Ex.resolved
              (DSvc 1) [DSvc 2] Ex.empty H0 Hd) as (s' & E & _).
  exists s'. exact E.
Defined.
